(** * Ted's Operations Dashboard: the aggregation pipeline of [dashboard.py]

    A shallow embedding of [src/dashboard.py].  The program is a pandas
    script; the embedding follows it function by function and gives the
    pandas primitives it calls ([groupby], [agg], [round], [sort_values],
    [idxmax], [read_csv]) an executable meaning on lists.

    Conventions of the model.
    - A data frame of well-typed rows is a [list Rec], in file order.
    - An aggregate table is an ordered list of [(index, columns)] pairs,
      as a pandas frame is an index plus columns.
    - Integer columns ([hour], [appointments]) are [Z]; the sums the
      program takes are assumed to stay inside int64.
    - Float columns are exact rationals [Q]; a value that comes out of a
      float division is a [float64], a rational or one of the IEEE specials.
      Binary rounding error of float64 is outside the model.
    - Timestamps of the [date] column are [Z] (an instant, as datetime64).
    - Strings are compared by [String.compare], the byte order of UTF-8,
      which is the code point order Python uses. *)

From Stdlib Require Import ZArith QArith Qabs Qround List Bool Lia Lqa.
From Stdlib Require Import Strings.String Strings.Ascii.
From Stdlib Require Import Sorting.Sorted Sorting.Permutation.
From Stdlib Require Import Structures.OrderedTypeEx.
From Stdlib Require Import Setoid Morphisms.
Import ListNotations.

Set Implicit Arguments.

Local Open Scope Z_scope.

(** ** Group keys *)

(** The four grouping columns hold strings, hours and timestamps.  What
    [groupby] needs of a key type is a total order it can sort by. *)
Class KeyOrder (K : Type) : Type := {
  kcmp : K -> K -> comparison;
  kcmp_eq : forall a b, kcmp a b = Eq <-> a = b;
  kcmp_antisym : forall a b, kcmp a b = CompOpp (kcmp b a);
  kcmp_trans : forall a b c, kcmp a b = Lt -> kcmp b c = Lt -> kcmp a c = Lt
}.

Definition klt {K} `{KeyOrder K} (a b : K) : Prop := kcmp a b = Lt.

Definition keqb {K} `{KeyOrder K} (a b : K) : bool :=
  match kcmp a b with Eq => true | _ => false end.

#[export, refine] Instance Z_KeyOrder : KeyOrder Z := {| kcmp := Z.compare |}.
Proof.
  - intros a b. apply Z.compare_eq_iff.
  - intros a b. apply Z.compare_antisym.
  - intros a b c Hab Hbc. rewrite Z.compare_lt_iff in *. lia.
Defined.

#[export, refine] Instance string_KeyOrder : KeyOrder string :=
  {| kcmp := String.compare |}.
Proof.
  - apply String_as_OT.cmp_eq.
  - apply String_as_OT.cmp_antisym.
  - intros a b c Hab Hbc.
    apply String_as_OT.cmp_lt in Hab, Hbc. apply String_as_OT.cmp_lt.
    eapply String_as_OT.lt_trans; eassumption.
Defined.

(** ** Input rows *)

(** One row of the input file, with the six columns the program reads. *)
Record Rec : Type := mkRec {
  date : Z;
  branch : string;
  hour : Z;
  appointments : Z;
  revenue : Q;
  service_type : string
}.

Definition DataFrame := list Rec.

(** A table: the index (group key) and the columns of each row, in row
    order. *)
Definition table (K V : Type) := list (K * V).

Definition index {K V} (t : table K V) : list K := map fst t.

(** ** [groupby]

    [df.groupby(col)] with the defaults [sort=True]: one group per
    distinct key, groups in ascending key order, the rows of a group in
    their order in the frame.  The frame is scanned once and each row is
    filed under its key. *)
Section GroupBy.
Context {K : Type} `{KeyOrder K}.

Fixpoint add_row (k : K) (r : Rec) (gs : table K (list Rec))
  : table K (list Rec) :=
  match gs with
  | [] => [(k, [r])]
  | (k', g) :: rest =>
      match kcmp k k' with
      | Lt => (k, [r]) :: gs
      | Eq => (k', r :: g) :: rest
      | Gt => (k', g) :: add_row k r rest
      end
  end.

Definition groupby (key : Rec -> K) (df : DataFrame) : table K (list Rec) :=
  fold_right (fun r gs => add_row (key r) r gs) [] df.

(** [.agg(...)]: one output row per group. *)
Definition agg {V} (f : list Rec -> V) (gs : table K (list Rec)) : table K V :=
  map (fun kg => (fst kg, f (snd kg))) gs.
End GroupBy.

(** ** Numbers *)

Definition sum_int (l : list Z) : Z := fold_right Z.add 0 l.

Definition sum_float (l : list Q) : Q := fold_right Qplus 0%Q l.

Definition count {A} (l : list A) : Z := Z.of_nat (List.length l).

(** [mean] of a float column and of an integer column (pandas returns a
    float for both).  Groups are never empty, so the divisor is positive. *)
Definition mean_float (l : list Q) : Q := (sum_float l / inject_Z (count l))%Q.

Definition mean_int (l : list Z) : Q :=
  (inject_Z (sum_int l) / inject_Z (count l))%Q.

(** Round to the nearest integer, halves to the even neighbour (numpy's
    [rint], which [round] is built on). *)
Definition rint (x : Q) : Z :=
  let f := Qfloor x in
  match (x - inject_Z f ?= 1 # 2)%Q with
  | Lt => f
  | Gt => f + 1
  | Eq => if Z.even f then f else f + 1
  end.

(** [x.round(2)] on a float: scale by 100, round, scale back. *)
Definition round2 (x : Q) : Q := (rint (x * 100) # 100)%Q.

(** A value is written with at most two decimals when it is a whole number
    of hundredths. *)
Definition two_decimals (x : Q) : Prop := exists n : Z, (x == n # 100)%Q.

(** The result of a float division: a rational, or one of the special
    values division by zero produces. *)
Inductive float64 : Type :=
| Finite (q : Q)
| PosInf
| NegInf
| NaN.

(** [a / n] for a float column [a] and an integer column [n], element by
    element.  Division by zero does not raise: it gives [NaN] for [0/0] and
    an infinity with the sign of [a] otherwise. *)
Definition fdiv (a : Q) (n : Z) : float64 :=
  if n =? 0 then
    match (a ?= 0)%Q with
    | Eq => NaN
    | Gt => PosInf
    | Lt => NegInf
    end
  else Finite (a / inject_Z n).

(** [.round(2)] leaves the special values as they are. *)
Definition fround2 (x : float64) : float64 :=
  match x with
  | Finite q => Finite (round2 q)
  | _ => x
  end.

(** pandas' [isna]: the null marker of a float column is [NaN]; the
    infinities are ordinary values. *)
Definition isna (x : float64) : bool :=
  match x with NaN => true | _ => false end.

(** ** [sort_values]

    [sort_values(col, ascending=False)] is called with its default
    [kind='quicksort'], which is not a stable sort: rows with equal values
    of [col] come out in an order the library does not fix.  What a caller
    has is that the result holds the same rows, in descending order of the
    column.  The sort is therefore an interface with that contract. *)
Class SortValues : Type := {
  sort_values_desc : forall A : Type, (A -> Q) -> list A -> list A;
  sort_values_perm : forall A (col : A -> Q) (l : list A),
      Permutation (sort_values_desc col l) l;
  sort_values_sorted : forall A (col : A -> Q) (l : list A),
      StronglySorted (fun x y => (col y <= col x)%Q) (sort_values_desc col l)
}.

(** ** The aggregate tables *)

Module Branch.
Record row : Type := mk {
  total_appointments : Z;
  total_revenue : Q;
  avg_daily_revenue : Q;
  revenue_per_appointment : float64
}.
End Branch.

Module Hourly.
Record row : Type := mk {
  avg_appointments : Q;
  avg_revenue : Q
}.
End Hourly.

Module Service.
Record row : Type := mk {
  total_revenue : Q;
  total_appointments : Z
}.
End Service.

Module Daily.
Record row : Type := mk {
  daily_revenue : Q;
  daily_appointments : Z
}.
End Daily.

(** A column of a table, as a function of its rows. *)
Definition column {K V X} (f : V -> X) (kv : K * V) : X := f (snd kv).

(** The series [t[col]]: the index with one column. *)
Definition series {K V X} (f : V -> X) (t : table K V) : table K X :=
  map (fun kv => (fst kv, f (snd kv))) t.

Section Aggregator.
Context `{SortValues}.

(** [.round(2)] of the three aggregated columns rounds the two float
    columns; the integer column is left as it is.  The fourth column is
    then computed from the rounded ones, row by row. *)
Definition branch_summary (df : DataFrame) : table string Branch.row :=
  let summary :=
    agg (fun g => (sum_int (map appointments g),
                   round2 (sum_float (map revenue g)),
                   round2 (mean_float (map revenue g))))
        (groupby branch df) in
  let summary :=
    map (fun '(k, (ta, tr, adr)) =>
           (k, Branch.mk ta tr adr (fround2 (fdiv tr ta))))
        summary in
  sort_values_desc (column Branch.total_revenue) summary.

Definition peak_hours (df : DataFrame) : table Z Hourly.row :=
  agg (fun g => Hourly.mk (round2 (mean_int (map appointments g)))
                          (round2 (mean_float (map revenue g))))
      (groupby hour df).

Definition service_breakdown (df : DataFrame) : table string Service.row :=
  sort_values_desc (column Service.total_revenue)
    (agg (fun g => Service.mk (sum_float (map revenue g))
                              (sum_int (map appointments g)))
         (groupby service_type df)).

Definition daily_trend (df : DataFrame) : table Z Daily.row :=
  agg (fun g => Daily.mk (sum_float (map revenue g))
                         (sum_int (map appointments g)))
      (groupby date df).
End Aggregator.

(** ** Exceptions *)

(** The exceptions a run can end with.  The first five are raised by the
    library calls of the program.  [DataLoadError] and [EmptyDatasetError]
    are the two classes the specification names; the program defines
    neither and no statement of it raises them. *)
Inductive exn : Type :=
| FileNotFoundError (path : string)
| EmptyDataError
| ValueError (msg : string)
| KeyError (col : string)
| TypeError
| DataLoadError (path : string)
| EmptyDatasetError.

Inductive result (A : Type) : Type :=
| Ok (a : A)
| Raise (e : exn).

Arguments Ok {A} a.
Arguments Raise {A} e.

(** ** [idxmax] and the KPI figures *)

(** [s.idxmax()]: the index label of the first occurrence of the maximum;
    on an empty series the library raises [ValueError]. *)
Fixpoint first_max {K} (best : K * Q) (s : table K Q) : K :=
  match s with
  | [] => fst best
  | kv :: rest =>
      match (snd kv ?= snd best)%Q with
      | Gt => first_max kv rest
      | _ => first_max best rest
      end
  end.

Definition idxmax {K} (s : table K Q) : result K :=
  match s with
  | [] => Raise (ValueError "attempt to get argmax of an empty sequence")
  | kv :: rest => Ok (first_max kv rest)
  end.

(** [df[col].nunique()]: the number of distinct values of a column. *)
Definition nunique (l : list string) : nat :=
  List.length (nodup string_dec l).

Record Kpis : Type := mkKpis {
  total_rev : Q;
  total_appts : Z;
  kpi_best_branch : string;
  kpi_peak_hour : Z;
  branches_tracked : nat
}.

Section Kpi.
Context `{SortValues}.

Definition best_branch (df : DataFrame) : result string :=
  idxmax (series Branch.total_revenue (branch_summary df)).

Definition peak_hour (df : DataFrame) : result Z :=
  idxmax (series Hourly.avg_appointments (peak_hours df)).

(** Lines 112 to 123 of [generate_dashboard]. *)
Definition kpis (df : DataFrame) : result Kpis :=
  let total_rev := sum_float (map revenue df) in
  let total_appts := sum_int (map appointments df) in
  match best_branch df with
  | Raise e => Raise e
  | Ok bb =>
      match peak_hour df with
      | Raise e => Raise e
      | Ok ph =>
          Ok (mkKpis total_rev total_appts bb ph (nunique (map branch df)))
      end
  end.
End Kpi.

(** ** Files and loading *)

(** A field of a delimited file, as the parser reads it: a number, a text
    that reads as a timestamp, or any other text. *)
Inductive cell : Type :=
| IntCell (z : Z)
| FloatCell (q : Q)
| DateCell (t : Z)
| TextCell (s : string).

(** A delimited text file: the header line and the data lines, each data
    line with one field per header name. *)
Record CsvFile : Type := mkCsv {
  header : list string;
  body : list (list cell)
}.

(** What is on disk when the program starts. *)
Definition FileSystem := string -> option CsvFile.

(** The frame [read_csv] returns: whatever columns the file has. *)
Record Frame : Type := mkFrame {
  columns : list string;
  cells : list (list cell)
}.

Definition has_column (c : string) (cols : list string) : bool :=
  existsb (String.eqb c) cols.

(** [pd.read_csv(filepath, parse_dates=[...])].  It raises when the file
    cannot be opened, when it has no header, and when a column listed in
    [parse_dates] is not in the header.  It checks no other column, and a
    field it cannot read as a number or a date stays in the frame as text. *)
Definition read_csv (fs : FileSystem) (filepath : string)
    (parse_dates : list string) : result Frame :=
  match fs filepath with
  | None => Raise (FileNotFoundError filepath)
  | Some f =>
      match header f with
      | [] => Raise EmptyDataError
      | _ =>
          match find (fun c => negb (has_column c (header f))) parse_dates with
          | Some c =>
              Raise (ValueError
                       ("Missing column provided to 'parse_dates': '" ++ c ++ "'"))
          | None => Ok (mkFrame (header f) (body f))
          end
      end
  end.

(** ** Console, files written, and the run *)

Inductive report : Type :=
| BranchSummary (t : table string Branch.row)
| PeakHours (t : table Z Hourly.row)
| ServiceBreakdown (t : table string Service.row)
| DailyTrend (t : table Z Daily.row).

(** What a run does to the outside, in order. *)
Inductive event : Type :=
| MakeDirs (dir : string)
| PrintLoaded (n : nat) (filepath : string)
| PrintHeading (title : string)
| PrintTable (t : report)
| ToCsv (path : string) (t : report)
| PrintExported
| Draw (panel : report)
| DrawKpis (k : Kpis)
| SaveFig (path : string)
| PrintSaved (path : string)
| Show.

(** A computation that emits events and returns or raises.  The events
    emitted before an exception stay emitted. *)
Definition IO (A : Type) : Type := (list event * result A)%type.

Definition ret {A} (a : A) : IO A := ([], Ok a).

Definition bind {A B} (m : IO A) (k : A -> IO B) : IO B :=
  match m with
  | (tr, Ok a) => let (tr', r) := k a in (tr ++ tr', r)
  | (tr, Raise e) => (tr, Raise e)
  end.

Definition emit (e : event) : IO unit := ([e], Ok tt).

Definition lift {A} (r : result A) : IO A := ([], r).

Notation "x <- m ;; k" := (bind m (fun x => k))
  (at level 61, m at next level, right associativity).
Notation "m ;;; k" := (bind m (fun _ => k))
  (at level 61, right associativity).

Definition DATA_FILE : string := "data/sample_data.csv".
Definition OUTPUT_DIR : string := "reports".

(** [os.path.join] of a directory and a file name. *)
Definition path_join (dir name : string) : string := (dir ++ "/" ++ name)%string.

Definition load_data (fs : FileSystem) (filepath : string) : IO Frame :=
  df <- lift (read_csv fs filepath ["date"%string]) ;;
  emit (PrintLoaded (List.length (cells df)) filepath) ;;;
  ret df.

(** *** The loaded frame as typed rows

    The program reads the frame through its column names: a missing column
    is a [KeyError] at the first access.  The aggregation model works on
    rows whose fields have the type of their column; a frame with a field
    of another kind is outside it, and the run is cut there with
    [TypeError].  The view is taken once, after loading. *)
Fixpoint position (c : string) (cols : list string) : option nat :=
  match cols with
  | [] => None
  | c' :: rest =>
      if String.eqb c c' then Some O
      else option_map S (position c rest)
  end.

Definition as_int (c : cell) : option Z :=
  match c with IntCell z => Some z | _ => None end.

Definition as_float (c : cell) : option Q :=
  match c with
  | IntCell z => Some (inject_Z z)
  | FloatCell q => Some q
  | _ => None
  end.

Definition as_date (c : cell) : option Z :=
  match c with DateCell t => Some t | _ => None end.

Definition as_text (c : cell) : option string :=
  match c with TextCell s => Some s | _ => None end.

Definition get_column (c : string) (cols : list string) : result nat :=
  match position c cols with
  | Some i => Ok i
  | None => Raise (KeyError c)
  end.

Definition get_field {A} (conv : cell -> option A) (i : nat) (line : list cell)
  : result A :=
  match nth_error line i with
  | Some c =>
      match conv c with
      | Some a => Ok a
      | None => Raise TypeError
      end
  | None => Raise TypeError
  end.

Definition rbind {A B} (r : result A) (k : A -> result B) : result B :=
  match r with
  | Ok a => k a
  | Raise e => Raise e
  end.

Fixpoint rmap {A B} (f : A -> result B) (l : list A) : result (list B) :=
  match l with
  | [] => Ok []
  | x :: rest =>
      rbind (f x) (fun y => rbind (rmap f rest) (fun ys => Ok (y :: ys)))
  end.

Definition as_records (fr : Frame) : result DataFrame :=
  rbind (get_column "date" (columns fr)) (fun i_date =>
  rbind (get_column "branch" (columns fr)) (fun i_branch =>
  rbind (get_column "hour" (columns fr)) (fun i_hour =>
  rbind (get_column "appointments" (columns fr)) (fun i_appts =>
  rbind (get_column "revenue" (columns fr)) (fun i_rev =>
  rbind (get_column "service_type" (columns fr)) (fun i_svc =>
  rmap (fun line =>
    rbind (get_field as_date i_date line) (fun d =>
    rbind (get_field as_text i_branch line) (fun b =>
    rbind (get_field as_int i_hour line) (fun h =>
    rbind (get_field as_int i_appts line) (fun a =>
    rbind (get_field as_float i_rev line) (fun r =>
    rbind (get_field as_text i_svc line) (fun s =>
    Ok (mkRec d b h a r s)))))))) (cells fr))))))).

(** ** Plotting

    The four panels are drawn by calls of the plotting library ([bar],
    [plot] with [fill_between], [pie]).  Such a call can raise on the table
    it is given: the pie, for one, refuses wedges that are negative or that
    add up to nothing.  What a call does with a table is the library's; the
    run sees whether it returns or raises. *)
Class Plotting : Type := {
  plot : report -> result unit
}.

Section Orchestrator.
Context `{SortValues} `{Plotting}.

Definition export_csv_reports (df : DataFrame) : IO unit :=
  emit (ToCsv (path_join OUTPUT_DIR "branch_summary.csv")
              (BranchSummary (branch_summary df))) ;;;
  emit (ToCsv (path_join OUTPUT_DIR "peak_hours.csv")
              (PeakHours (peak_hours df))) ;;;
  emit (ToCsv (path_join OUTPUT_DIR "service_breakdown.csv")
              (ServiceBreakdown (service_breakdown df))) ;;;
  emit PrintExported.

(** One panel: the plotting call returns, and the panel is on the figure,
    or it raises. *)
Definition draw (panel : report) : IO unit :=
  lift (plot panel) ;;;
  emit (Draw panel).

(** The four panels are drawn from the four tables, then the KPI figures
    are computed and drawn, then the image is saved under a name made of
    the time of the run.  Failures of the file system on saving are not
    modelled. *)
Definition generate_dashboard (timestamp : string) (df : DataFrame) : IO unit :=
  draw (BranchSummary (branch_summary df)) ;;;
  draw (PeakHours (peak_hours df)) ;;;
  draw (ServiceBreakdown (service_breakdown df)) ;;;
  draw (DailyTrend (daily_trend df)) ;;;
  k <- lift (kpis df) ;;
  emit (DrawKpis k) ;;;
  let output_path :=
    path_join OUTPUT_DIR ("dashboard_" ++ timestamp ++ ".png") in
  emit (SaveFig output_path) ;;;
  emit (PrintSaved output_path) ;;;
  emit Show.

(** The module body: the directory is made when the module is loaded,
    then the [__main__] block runs. *)
Definition main (fs : FileSystem) (timestamp : string) : IO unit :=
  emit (MakeDirs OUTPUT_DIR) ;;;
  fr <- load_data fs DATA_FILE ;;
  df <- lift (as_records fr) ;;
  emit (PrintHeading "Branch Summary") ;;;
  emit (PrintTable (BranchSummary (branch_summary df))) ;;;
  emit (PrintHeading "Peak Hours") ;;;
  emit (PrintTable (PeakHours (peak_hours df))) ;;;
  emit (PrintHeading "Service Breakdown") ;;;
  emit (PrintTable (ServiceBreakdown (service_breakdown df))) ;;;
  export_csv_reports df ;;;
  generate_dashboard timestamp df.
End Orchestrator.

(** ** A sort that meets the contract of [sort_values]

    An insertion sort into descending order that keeps rows with equal
    values in the order they had (what [kind='stable'] would give).  It is
    the instance the examples are run with. *)
Fixpoint insert_before {A} (col : A -> Q) (x : A) (l : list A) : list A :=
  match l with
  | [] => [x]
  | y :: rest =>
      match (col x ?= col y)%Q with
      | Lt => y :: insert_before col x rest
      | _ => x :: l
      end
  end.

Definition stable_sort_desc {A} (col : A -> Q) (l : list A) : list A :=
  fold_right (insert_before col) [] l.

(** ** A plotting behaviour to run the examples with

    The pie refuses a negative wedge and wedges that add up to nothing;
    the other panels are drawn as given.  It stands for the library on the
    tables of the examples, all of which it draws; the properties below
    hold for every plotting behaviour. *)
Definition checked_pie (wedges : list Q) : result unit :=
  if existsb (fun x => negb (Qle_bool 0 x)) wedges
  then Raise (ValueError "Wedge sizes 'x' must be non negative values")
  else if Qeq_bool (sum_float wedges) 0
  then Raise (ValueError "cannot convert float NaN to integer")
  else Ok tt.

Definition checked_plot : Plotting :=
  {| plot := fun panel =>
       match panel with
       | ServiceBreakdown t =>
           checked_pie (map (column Service.total_revenue) t)
       | _ => Ok tt
       end |}.

(** * Properties *)

(** ** Key order *)

Section KeyOrderFacts.
Context {K : Type} `{KeyOrder K}.

Lemma kcmp_refl (a : K) : kcmp a a = Eq.
Proof. now apply kcmp_eq. Qed.

Lemma klt_irrefl (a : K) : ~ klt a a.
Proof. unfold klt. rewrite kcmp_refl. discriminate. Qed.

Lemma klt_trans (a b c : K) : klt a b -> klt b c -> klt a c.
Proof. apply kcmp_trans. Qed.

Lemma kcmp_gt_lt (a b : K) : kcmp a b = Gt -> klt b a.
Proof.
  unfold klt. intros Hab. rewrite kcmp_antisym, Hab. reflexivity.
Qed.

Lemma klt_neq (a b : K) : klt a b -> a <> b.
Proof. intros Hlt ->. exact (klt_irrefl Hlt). Qed.

Lemma keqb_eq (a b : K) : keqb a b = true <-> a = b.
Proof.
  unfold keqb. rewrite <- kcmp_eq. destruct (kcmp a b); split; congruence.
Qed.

Lemma keqb_refl (a : K) : keqb a a = true.
Proof. now apply keqb_eq. Qed.

Lemma keqb_neq (a b : K) : a <> b -> keqb a b = false.
Proof.
  intros Hne. destruct (keqb a b) eqn:E; [|reflexivity].
  apply keqb_eq in E. contradiction.
Qed.

(** A strictly ascending list has no duplicate. *)
Lemma StronglySorted_klt_NoDup (l : list K) :
  StronglySorted klt l -> NoDup l.
Proof.
  induction 1 as [|a l Hs IH Hall]; constructor; [|exact IH].
  intros Hin. rewrite Forall_forall in Hall.
  exact (klt_irrefl (Hall a Hin)).
Qed.
End KeyOrderFacts.

(** ** [groupby] *)

Section GroupByFacts.
Context {K : Type} `{KeyOrder K}.
Variable key : Rec -> K.

Lemma add_row_index (k : K) (r : Rec) (gs : table K (list Rec)) (k' : K) :
  In k' (index (add_row k r gs)) <-> k' = k \/ In k' (index gs).
Proof.
  unfold index. induction gs as [|[k0 g0] gs IH]; simpl.
  - intuition.
  - destruct (kcmp k k0) eqn:E; simpl.
    + apply kcmp_eq in E. subst k0. intuition.
    + intuition.
    + rewrite IH. intuition.
Qed.

Lemma add_row_sorted (k : K) (r : Rec) (gs : table K (list Rec)) :
  StronglySorted klt (index gs) ->
  StronglySorted klt (index (add_row k r gs)).
Proof.
  unfold index. induction gs as [|[k0 g0] gs IH]; simpl; intros Hs.
  - repeat constructor.
  - apply StronglySorted_inv in Hs. destruct Hs as [Hs Hall].
    destruct (kcmp k k0) eqn:E; simpl.
    + constructor; assumption.
    + constructor.
      * constructor; assumption.
      * constructor; [exact E|].
        eapply Forall_impl; [|exact Hall].
        intros a Ha. exact (klt_trans E Ha).
    + constructor; [apply IH; exact Hs|].
      rewrite Forall_forall in *. intros a Ha.
      apply (add_row_index k r gs a) in Ha. destruct Ha as [->|Ha].
      * apply kcmp_gt_lt, E.
      * apply Hall, Ha.
Qed.

(** The groups come out in strictly ascending key order. *)
Lemma groupby_sorted (df : DataFrame) :
  StronglySorted klt (index (groupby key df)).
Proof.
  induction df as [|r df IH]; simpl.
  - constructor.
  - apply add_row_sorted, IH.
Qed.

(** The group keys are the values of the grouping column. *)
Lemma groupby_index (df : DataFrame) (k : K) :
  In k (index (groupby key df)) <-> In k (map key df).
Proof.
  induction df as [|r df IH]; simpl.
  - tauto.
  - rewrite add_row_index, IH. intuition.
Qed.

Lemma groupby_NoDup (df : DataFrame) : NoDup (index (groupby key df)).
Proof. apply StronglySorted_klt_NoDup, groupby_sorted. Qed.

(** Where a row lands: in the group of its key if there is one, in a new
    group if not; the other groups are untouched. *)
Lemma add_row_In (k : K) (r : Rec) (gs : table K (list Rec)) (k' : K)
      (g' : list Rec) :
  StronglySorted klt (index gs) ->
  In (k', g') (add_row k r gs) ->
  (k' = k /\ ((exists g, In (k, g) gs /\ g' = r :: g)
              \/ (~ In k (index gs) /\ g' = [r])))
  \/ (k' <> k /\ In (k', g') gs).
Proof.
  unfold index. induction gs as [|[k0 g0] gs IH]; simpl; intros Hs Hin.
  - destruct Hin as [Hin|[]]. inversion Hin; subst. left. intuition.
  - apply StronglySorted_inv in Hs. destruct Hs as [Hs Hall].
    rewrite Forall_forall in Hall.
    destruct (kcmp k k0) eqn:E.
    + apply kcmp_eq in E. subst k0.
      destruct Hin as [Hin|Hin].
      * inversion Hin; subst. left. split; [reflexivity|].
        left. exists g0. intuition.
      * right. split; [|right; exact Hin].
        intros ->. apply (in_map fst) in Hin. simpl in Hin.
        exact (klt_irrefl (Hall _ Hin)).
    + destruct Hin as [Hin|Hin].
      * inversion Hin; subst. left. split; [reflexivity|]. right.
        split; [|reflexivity]. intros [Hk|Hk].
        -- subst k0. exact (klt_irrefl E).
        -- exact (klt_irrefl (klt_trans E (Hall _ Hk))).
      * right. split; [|exact Hin]. intros ->.
        destruct Hin as [Hin|Hin].
        -- inversion Hin; subst. exact (klt_irrefl E).
        -- apply (in_map fst) in Hin. simpl in Hin.
           exact (klt_irrefl (klt_trans E (Hall _ Hin))).
    + destruct Hin as [Hin|Hin].
      * inversion Hin; subst. right. split; [|left; reflexivity].
        intros ->. rewrite kcmp_refl in E. discriminate.
      * destruct (IH Hs Hin) as [[-> [[g [Hg ->]]|[Hn ->]]]|[Hne Hg]].
        -- left. split; [reflexivity|]. left. exists g. intuition.
        -- left. split; [reflexivity|]. right. split; [|reflexivity].
           intros [Hk|Hk]; [|exact (Hn Hk)].
           subst k0. rewrite kcmp_refl in E. discriminate.
        -- right. intuition.
Qed.

Lemma filter_key_absent (df : DataFrame) (k : K) :
  ~ In k (map key df) -> filter (fun r => keqb (key r) k) df = [].
Proof.
  induction df as [|r df IH]; simpl; intros Hn; [reflexivity|].
  rewrite keqb_neq by tauto. apply IH. tauto.
Qed.

(** Each group holds exactly the rows with its key, in frame order. *)
Lemma groupby_group (df : DataFrame) (k : K) (g : list Rec) :
  In (k, g) (groupby key df) ->
  g = filter (fun r => keqb (key r) k) df.
Proof.
  revert k g. induction df as [|r df IH]; simpl; intros k g Hin.
  - destruct Hin.
  - apply add_row_In in Hin; [|apply groupby_sorted].
    destruct Hin as [[-> [[g0 [Hg ->]]|[Hn ->]]]|[Hne Hg]].
    + rewrite keqb_refl. f_equal. apply IH, Hg.
    + rewrite keqb_refl. f_equal.
      rewrite groupby_index in Hn.
      symmetry. apply filter_key_absent, Hn.
    + rewrite keqb_neq by congruence. apply IH, Hg.
Qed.
End GroupByFacts.

(** ** Sums over groups *)

Lemma sum_int_perm (l l' : list Z) :
  Permutation l l' -> sum_int l = sum_int l'.
Proof.
  induction 1; simpl; lia.
Qed.

Lemma sum_float_perm (l l' : list Q) :
  Permutation l l' -> (sum_float l == sum_float l')%Q.
Proof.
  induction 1; simpl.
  - reflexivity.
  - rewrite IHPermutation. reflexivity.
  - ring.
  - etransitivity; eassumption.
Qed.

Section GroupSums.
Context {K : Type} `{KeyOrder K}.
Variable key : Rec -> K.

Lemma add_row_sum_int (f : Rec -> Z) (k : K) (r : Rec)
      (gs : table K (list Rec)) :
  sum_int (map (fun kg => sum_int (map f (snd kg))) (add_row k r gs))
  = f r + sum_int (map (fun kg => sum_int (map f (snd kg))) gs).
Proof.
  induction gs as [|[k0 g0] gs IH]; simpl.
  - lia.
  - destruct (kcmp k k0); simpl; lia.
Qed.

(** Summing a column group by group and then over the groups gives the
    sum of the column. *)
Lemma groupby_sum_int (f : Rec -> Z) (df : DataFrame) :
  sum_int (map (fun kg => sum_int (map f (snd kg))) (groupby key df))
  = sum_int (map f df).
Proof.
  induction df as [|r df IH]; simpl; [reflexivity|].
  rewrite add_row_sum_int, IH. reflexivity.
Qed.

Lemma add_row_sum_float (f : Rec -> Q) (k : K) (r : Rec)
      (gs : table K (list Rec)) :
  (sum_float (map (fun kg => sum_float (map f (snd kg))) (add_row k r gs))
   == f r + sum_float (map (fun kg => sum_float (map f (snd kg))) gs))%Q.
Proof.
  induction gs as [|[k0 g0] gs IH]; simpl.
  - ring.
  - destruct (kcmp k k0); simpl.
    + ring.
    + ring.
    + rewrite IH. ring.
Qed.

Lemma groupby_sum_float (f : Rec -> Q) (df : DataFrame) :
  (sum_float (map (fun kg => sum_float (map f (snd kg))) (groupby key df))
   == sum_float (map f df))%Q.
Proof.
  induction df as [|r df IH]; simpl; [reflexivity|].
  rewrite add_row_sum_float, IH. reflexivity.
Qed.

(** No group is empty. *)
Lemma groupby_nonempty (df : DataFrame) (k : K) (g : list Rec) :
  In (k, g) (groupby key df) -> g <> [].
Proof.
  intros Hin Hg. pose proof (groupby_group key df k g Hin) as Hf.
  assert (Hk : In k (index (groupby key df))).
  { unfold index. apply (in_map fst) in Hin. exact Hin. }
  apply groupby_index in Hk. apply in_map_iff in Hk.
  destruct Hk as [r [Hr Hin']].
  assert (In r g).
  { rewrite Hf. apply filter_In. split; [exact Hin'|].
    apply keqb_eq, Hr. }
  subst g. contradiction.
Qed.
End GroupSums.

(** ** Rounding *)

Lemma rint_close (x : Q) :
  (Qabs (inject_Z (rint x) - x) <= 1 # 2)%Q.
Proof.
  unfold rint.
  pose proof (Qfloor_le x) as Hlo. pose proof (Qlt_floor x) as Hhi.
  rewrite inject_Z_plus in Hhi. change (inject_Z 1) with 1%Q in Hhi.
  set (f := Qfloor x) in *.
  apply Qabs_Qle_condition.
  destruct (x - inject_Z f ?= 1 # 2)%Q eqn:E.
  - apply Qeq_alt in E.
    destruct (Z.even f); [|rewrite inject_Z_plus; change (inject_Z 1) with 1%Q];
      split; lra.
  - apply Qlt_alt in E. split; lra.
  - apply Qgt_alt in E. rewrite inject_Z_plus. change (inject_Z 1) with 1%Q.
    split; lra.
Qed.

#[export] Instance rint_Proper : Proper (Qeq ==> eq) rint.
Proof.
  intros x y Hxy. unfold rint.
  assert (Hf : Qfloor x = Qfloor y) by (apply Qfloor_comp; exact Hxy).
  rewrite Hf.
  assert (Hc : (x - inject_Z (Qfloor y) ?= 1 # 2)%Q
               = (y - inject_Z (Qfloor y) ?= 1 # 2)%Q).
  { apply Qcompare_comp; [rewrite Hxy|]; reflexivity. }
  rewrite Hc. reflexivity.
Qed.

Lemma rint_inject_Z (n : Z) : rint (inject_Z n) = n.
Proof.
  unfold rint. rewrite Qfloor_Z.
  assert (E : (inject_Z n - inject_Z n ?= 1 # 2)%Q = Lt).
  { rewrite <- Qlt_alt. lra. }
  rewrite E. reflexivity.
Qed.

Lemma Qmake_hundredths (n : Z) : (n # 100 == inject_Z n * (1 # 100))%Q.
Proof.
  unfold Qeq, inject_Z, Qmult. simpl. lia.
Qed.

(** Rounding to two decimals moves a value by at most half a hundredth. *)
Lemma round2_close (x : Q) : (Qabs (round2 x - x) <= 1 # 200)%Q.
Proof.
  unfold round2. rewrite (Qmake_hundredths (rint (x * 100))).
  pose proof (rint_close (x * 100)) as Hc.
  apply Qabs_Qle_condition in Hc. apply Qabs_Qle_condition.
  split; lra.
Qed.

Lemma round2_two_decimals (x : Q) : two_decimals (round2 x).
Proof.
  exists (rint (x * 100)). reflexivity.
Qed.

(** A value with two decimals is not changed by rounding. *)
Lemma round2_fixed (x : Q) : two_decimals x -> (round2 x == x)%Q.
Proof.
  intros [n Hn]. unfold round2.
  assert (Hx : (x * 100 == inject_Z n)%Q).
  { rewrite Hn, (Qmake_hundredths n). field. }
  rewrite Hx, rint_inject_Z. symmetry. exact Hn.
Qed.

Lemma sum_float_two_decimals (l : list Q) :
  Forall two_decimals l -> two_decimals (sum_float l).
Proof.
  induction 1 as [|x l [n Hn] _ [m Hm]]; simpl.
  - exists 0. reflexivity.
  - exists (n + m).
    rewrite Hn, Hm, (Qmake_hundredths n), (Qmake_hundredths m),
      (Qmake_hundredths (n + m)), inject_Z_plus.
    ring.
Qed.

(** ** The stable sort meets the contract *)

Section InsertionSorts.
Variable A : Type.
Variable col : A -> Q.

Let desc (x y : A) : Prop := (col y <= col x)%Q.

Lemma Qcompare_not_Lt (p q : Q) : (p ?= q)%Q <> Lt -> (q <= p)%Q.
Proof.
  intros Hc. apply Qnot_lt_le. intros Hlt. apply Hc.
  rewrite <- Qlt_alt. exact Hlt.
Qed.

Lemma insert_before_perm (x : A) (l : list A) :
  Permutation (insert_before col x l) (x :: l).
Proof.
  induction l as [|y l IH]; simpl; [reflexivity|].
  destruct (col x ?= col y)%Q; try reflexivity.
  rewrite IH. apply perm_swap.
Qed.

Lemma desc_cons (x y : A) (l : list A) :
  desc x y -> Forall (desc y) l -> Forall (desc x) (y :: l).
Proof.
  intros Hxy Hl. constructor; [exact Hxy|].
  eapply Forall_impl; [|exact Hl].
  intros z Hz. unfold desc in *. eapply Qle_trans; eassumption.
Qed.

Lemma insert_before_sorted (x : A) (l : list A) :
  StronglySorted desc l -> StronglySorted desc (insert_before col x l).
Proof.
  induction l as [|y l IH]; simpl; intros Hs.
  - repeat constructor.
  - pose proof Hs as Hs'.
    apply StronglySorted_inv in Hs. destruct Hs as [Hs Hall].
    destruct (col x ?= col y)%Q eqn:E.
    + constructor; [exact Hs'|].
      apply desc_cons; [|exact Hall].
      apply Qcompare_not_Lt. rewrite E. discriminate.
    + constructor; [apply IH, Hs|].
      apply (Permutation_Forall (Permutation_sym (insert_before_perm x l))).
      constructor; [|exact Hall].
      unfold desc. apply Qlt_le_weak. rewrite Qlt_alt. exact E.
    + constructor; [exact Hs'|].
      apply desc_cons; [|exact Hall].
      apply Qcompare_not_Lt. rewrite E. discriminate.
Qed.

Lemma stable_sort_desc_perm (l : list A) :
  Permutation (stable_sort_desc col l) l.
Proof.
  induction l as [|x l IH]; simpl; [reflexivity|].
  rewrite insert_before_perm. apply perm_skip, IH.
Qed.

Lemma stable_sort_desc_sorted (l : list A) :
  StronglySorted desc (stable_sort_desc col l).
Proof.
  induction l as [|x l IH]; simpl; [constructor|].
  apply insert_before_sorted, IH.
Qed.

End InsertionSorts.

(** [sort_values] as a stable sort. *)
Definition stable_sort : SortValues :=
  {| sort_values_desc := @stable_sort_desc;
     sort_values_perm := stable_sort_desc_perm;
     sort_values_sorted := stable_sort_desc_sorted |}.

(** ** The rows of the four tables *)

(** The row [branch_summary] builds from one group. *)
Definition branch_row (g : list Rec) : Branch.row :=
  let ta := sum_int (map appointments g) in
  let tr := round2 (sum_float (map revenue g)) in
  Branch.mk ta tr (round2 (mean_float (map revenue g))) (fround2 (fdiv tr ta)).

Definition service_row (g : list Rec) : Service.row :=
  Service.mk (sum_float (map revenue g)) (sum_int (map appointments g)).

Definition hourly_row (g : list Rec) : Hourly.row :=
  Hourly.mk (round2 (mean_int (map appointments g)))
            (round2 (mean_float (map revenue g))).

Definition daily_row (g : list Rec) : Daily.row :=
  Daily.mk (sum_float (map revenue g)) (sum_int (map appointments g)).

(** The rows of a frame with a given branch, service type, hour, date. *)
Definition rows_of_branch (b : string) (df : DataFrame) : list Rec :=
  filter (fun r => String.eqb (branch r) b) df.

Definition rows_of_service (s : string) (df : DataFrame) : list Rec :=
  filter (fun r => String.eqb (service_type r) s) df.

Definition rows_of_hour (h : Z) (df : DataFrame) : list Rec :=
  filter (fun r => hour r =? h) df.

Definition rows_of_date (d : Z) (df : DataFrame) : list Rec :=
  filter (fun r => date r =? d) df.

Lemma index_agg {K V} `{KeyOrder K} (f : list Rec -> V)
      (gs : table K (list Rec)) :
  index (agg f gs) = index gs.
Proof.
  unfold index, agg. rewrite map_map. reflexivity.
Qed.

Lemma In_agg {K V} `{KeyOrder K} (f : list Rec -> V)
      (gs : table K (list Rec)) (k : K) (v : V) :
  In (k, v) (agg f gs) <-> exists g, In (k, g) gs /\ v = f g.
Proof.
  unfold agg. rewrite in_map_iff. split.
  - intros [[k0 g0] [E Hin]]. simpl in E. inversion E; subst.
    exists g0. split; [exact Hin|reflexivity].
  - intros [g [Hin ->]]. exists (k, g). split; [reflexivity|exact Hin].
Qed.

Lemma keqb_string (a b : string) : keqb a b = String.eqb a b.
Proof.
  destruct (String.eqb a b) eqn:E.
  - apply String.eqb_eq in E. apply keqb_eq, E.
  - apply String.eqb_neq in E. apply keqb_neq, E.
Qed.

Lemma keqb_Z (a b : Z) : keqb a b = (a =? b).
Proof.
  destruct (a =? b) eqn:E.
  - apply Z.eqb_eq in E. apply keqb_eq, E.
  - apply Z.eqb_neq in E. apply keqb_neq, E.
Qed.

Lemma groupby_branch_group (df : DataFrame) (k : string) (g : list Rec) :
  In (k, g) (groupby branch df) -> g = rows_of_branch k df.
Proof.
  intros Hin. rewrite (groupby_group branch df k g Hin).
  apply filter_ext. intros r. apply keqb_string.
Qed.

Lemma groupby_service_group (df : DataFrame) (k : string) (g : list Rec) :
  In (k, g) (groupby service_type df) -> g = rows_of_service k df.
Proof.
  intros Hin. rewrite (groupby_group service_type df k g Hin).
  apply filter_ext. intros r. apply keqb_string.
Qed.

Lemma groupby_hour_group (df : DataFrame) (k : Z) (g : list Rec) :
  In (k, g) (groupby hour df) -> g = rows_of_hour k df.
Proof.
  intros Hin. rewrite (groupby_group hour df k g Hin).
  apply filter_ext. intros r. apply keqb_Z.
Qed.

Lemma groupby_date_group (df : DataFrame) (k : Z) (g : list Rec) :
  In (k, g) (groupby date df) -> g = rows_of_date k df.
Proof.
  intros Hin. rewrite (groupby_group date df k g Hin).
  apply filter_ext. intros r. apply keqb_Z.
Qed.

Section TableFacts.
Context `{SortValues}.

(** Before sorting, [branch_summary] has one [branch_row] per group. *)
Lemma branch_summary_perm (df : DataFrame) :
  Permutation (branch_summary df) (agg branch_row (groupby branch df)).
Proof.
  unfold branch_summary. rewrite sort_values_perm.
  unfold agg. rewrite map_map. reflexivity.
Qed.

Lemma service_breakdown_perm (df : DataFrame) :
  Permutation (service_breakdown df) (agg service_row (groupby service_type df)).
Proof.
  unfold service_breakdown. rewrite sort_values_perm. reflexivity.
Qed.

Lemma branch_summary_In (df : DataFrame) (k : string) (r : Branch.row) :
  In (k, r) (branch_summary df) <->
  In k (map branch df) /\ r = branch_row (rows_of_branch k df).
Proof.
  split.
  - intros Hin.
    apply (Permutation_in _ (branch_summary_perm df)) in Hin.
    apply In_agg in Hin. destruct Hin as [g [Hg ->]].
    split.
    + apply (groupby_index branch). unfold index.
      apply (in_map fst) in Hg. exact Hg.
    + f_equal. apply groupby_branch_group, Hg.
  - intros [Hk ->].
    apply (Permutation_in _ (Permutation_sym (branch_summary_perm df))).
    apply In_agg. apply (groupby_index branch) in Hk.
    unfold index in Hk. apply in_map_iff in Hk.
    destruct Hk as [[k0 g] [E Hg]]. simpl in E. subst k0.
    exists g. split; [exact Hg|].
    f_equal. symmetry. apply groupby_branch_group, Hg.
Qed.

Lemma service_breakdown_In (df : DataFrame) (k : string) (r : Service.row) :
  In (k, r) (service_breakdown df) <->
  In k (map service_type df) /\ r = service_row (rows_of_service k df).
Proof.
  split.
  - intros Hin.
    apply (Permutation_in _ (service_breakdown_perm df)) in Hin.
    apply In_agg in Hin. destruct Hin as [g [Hg ->]].
    split.
    + apply (groupby_index service_type). unfold index.
      apply (in_map fst) in Hg. exact Hg.
    + f_equal. apply groupby_service_group, Hg.
  - intros [Hk ->].
    apply (Permutation_in _ (Permutation_sym (service_breakdown_perm df))).
    apply In_agg. apply (groupby_index service_type) in Hk.
    unfold index in Hk. apply in_map_iff in Hk.
    destruct Hk as [[k0 g] [E Hg]]. simpl in E. subst k0.
    exists g. split; [exact Hg|].
    f_equal. symmetry. apply groupby_service_group, Hg.
Qed.
End TableFacts.

Lemma peak_hours_In (df : DataFrame) (h : Z) (r : Hourly.row) :
  In (h, r) (peak_hours df) <->
  In h (map hour df) /\ r = hourly_row (rows_of_hour h df).
Proof.
  unfold peak_hours. fold hourly_row. change (fun g => hourly_row g) with hourly_row.
  rewrite In_agg. split.
  - intros [g [Hg ->]]. split.
    + apply (groupby_index hour). unfold index.
      apply (in_map fst) in Hg. exact Hg.
    + f_equal. apply groupby_hour_group, Hg.
  - intros [Hk ->]. apply (groupby_index hour) in Hk.
    unfold index in Hk. apply in_map_iff in Hk.
    destruct Hk as [[k0 g] [E Hg]]. simpl in E. subst k0.
    exists g. split; [exact Hg|].
    f_equal. symmetry. apply groupby_hour_group, Hg.
Qed.

Lemma daily_trend_In (df : DataFrame) (d : Z) (r : Daily.row) :
  In (d, r) (daily_trend df) <->
  In d (map date df) /\ r = daily_row (rows_of_date d df).
Proof.
  unfold daily_trend. fold daily_row. change (fun g => daily_row g) with daily_row.
  rewrite In_agg. split.
  - intros [g [Hg ->]]. split.
    + apply (groupby_index date). unfold index.
      apply (in_map fst) in Hg. exact Hg.
    + f_equal. apply groupby_date_group, Hg.
  - intros [Hk ->]. apply (groupby_index date) in Hk.
    unfold index in Hk. apply in_map_iff in Hk.
    destruct Hk as [[k0 g] [E Hg]]. simpl in E. subst k0.
    exists g. split; [exact Hg|].
    f_equal. symmetry. apply groupby_date_group, Hg.
Qed.

(** ** Totals of the Branch Summary *)

Lemma count_cons {A} (x : A) (l : list A) : count (x :: l) = 1 + count l.
Proof. unfold count. simpl List.length. lia. Qed.

(** Rounding every term moves a sum by at most half a hundredth a term. *)
Lemma sum_round2_close (l : list Q) :
  (Qabs (sum_float (map round2 l) - sum_float l)
   <= inject_Z (count l) * (1 # 200))%Q.
Proof.
  induction l as [|x l IH].
  - unfold count. simpl map. simpl sum_float. simpl List.length.
    change (inject_Z (Z.of_nat 0)) with 0%Q.
    apply Qabs_Qle_condition. split; lra.
  - rewrite count_cons, inject_Z_plus. change (inject_Z 1) with 1%Q.
    simpl map. simpl sum_float.
    pose proof (round2_close x) as Hx.
    apply Qabs_Qle_condition in Hx, IH. apply Qabs_Qle_condition.
    split; lra.
Qed.

Lemma sum_round2_fixed (l : list Q) :
  Forall two_decimals l ->
  (sum_float (map round2 l) == sum_float l)%Q.
Proof.
  induction 1 as [|x l Hx _ IH]; simpl; [reflexivity|].
  rewrite IH, (round2_fixed Hx). reflexivity.
Qed.

Section BranchTotals.
Context `{SortValues}.

Lemma branch_summary_appointments (df : DataFrame) :
  map (column Branch.total_appointments)
      (agg branch_row (groupby branch df))
  = map (fun kg => sum_int (map appointments (snd kg))) (groupby branch df).
Proof.
  unfold agg. rewrite map_map. reflexivity.
Qed.

Lemma branch_summary_revenue (df : DataFrame) :
  map (column Branch.total_revenue) (agg branch_row (groupby branch df))
  = map round2
      (map (fun kg => sum_float (map revenue (snd kg))) (groupby branch df)).
Proof.
  unfold agg. rewrite !map_map. reflexivity.
Qed.

Lemma group_two_decimals (df : DataFrame) :
  Forall (fun r => two_decimals (revenue r)) df ->
  Forall two_decimals
    (map (fun kg => sum_float (map revenue (snd kg))) (groupby branch df)).
Proof.
  intros Hall. apply Forall_forall. intros s Hs.
  apply in_map_iff in Hs. destruct Hs as [[k g] [<- Hg]]. simpl.
  apply sum_float_two_decimals.
  rewrite (groupby_branch_group df k g Hg). unfold rows_of_branch.
  apply Forall_forall. intros q Hq.
  apply in_map_iff in Hq. destruct Hq as [r [<- Hr]].
  apply filter_In in Hr. rewrite Forall_forall in Hall.
  apply Hall, Hr.
Qed.

(** C1.  Over the rows of the Branch Summary, [total_appointments] adds up
    to the sum of [appointments] over the records, exactly.
    [total_revenue] adds up to the sum of [revenue] over the records up to
    the rounding of each row to two decimals: the two sums differ by at
    most half a hundredth per row, and they are equal when every record's
    revenue is written with at most two decimals. *)
Theorem branch_summary_totals (df : DataFrame) :
  sum_int (map (column Branch.total_appointments) (branch_summary df))
  = sum_int (map appointments df)
  /\ (Qabs (sum_float (map (column Branch.total_revenue) (branch_summary df))
            - sum_float (map revenue df))
      <= inject_Z (count (branch_summary df)) * (1 # 200))%Q
  /\ (Forall (fun r => two_decimals (revenue r)) df ->
      (sum_float (map (column Branch.total_revenue) (branch_summary df))
       == sum_float (map revenue df))%Q).
Proof.
  pose proof (branch_summary_perm df) as Hp.
  assert (Hrev :
    (sum_float (map (column Branch.total_revenue) (branch_summary df))
     == sum_float (map round2
          (map (fun kg => sum_float (map revenue (snd kg)))
               (groupby branch df))))%Q).
  { rewrite <- branch_summary_revenue.
    apply sum_float_perm, Permutation_map, Hp. }
  assert (Hcnt : count (branch_summary df)
                 = count (map (fun kg => sum_float (map revenue (snd kg)))
                              (groupby branch df))).
  { unfold count. rewrite (Permutation_length Hp).
    unfold agg. rewrite !length_map. reflexivity. }
  split; [|split].
  - rewrite (sum_int_perm (Permutation_map _ Hp)).
    rewrite branch_summary_appointments. apply groupby_sum_int.
  - rewrite Hrev, Hcnt, <- (groupby_sum_float branch revenue df).
    apply sum_round2_close.
  - intros Hall. rewrite Hrev, <- (groupby_sum_float branch revenue df).
    apply sum_round2_fixed, group_two_decimals, Hall.
Qed.
End BranchTotals.

(** ** Group keys of the four tables *)

Section Keys.
Context `{SortValues}.

(** C2.  Each of the four tables has one row per distinct value of its
    grouping column: no key occurs twice, and a value is a key exactly
    when some record has it in that column. *)
Theorem aggregate_keys (df : DataFrame) :
  (NoDup (index (branch_summary df))
   /\ forall b, In b (index (branch_summary df)) <-> In b (map branch df))
  /\ (NoDup (index (peak_hours df))
      /\ forall h, In h (index (peak_hours df)) <-> In h (map hour df))
  /\ (NoDup (index (service_breakdown df))
      /\ forall s, In s (index (service_breakdown df))
                   <-> In s (map service_type df))
  /\ (NoDup (index (daily_trend df))
      /\ forall d, In d (index (daily_trend df)) <-> In d (map date df)).
Proof.
  assert (Hb : Permutation (index (branch_summary df))
                           (index (groupby branch df))).
  { rewrite <- (index_agg branch_row). unfold index.
    apply Permutation_map, branch_summary_perm. }
  assert (Hs : Permutation (index (service_breakdown df))
                           (index (groupby service_type df))).
  { rewrite <- (index_agg service_row). unfold index.
    apply Permutation_map, service_breakdown_perm. }
  repeat split.
  - apply (Permutation_NoDup (Permutation_sym Hb)), groupby_NoDup.
  - intros Hin. apply (groupby_index branch).
    apply (Permutation_in _ Hb), Hin.
  - intros Hin. apply (Permutation_in _ (Permutation_sym Hb)).
    apply (groupby_index branch), Hin.
  - unfold peak_hours. rewrite index_agg. apply groupby_NoDup.
  - unfold peak_hours. rewrite index_agg. apply (groupby_index hour).
  - unfold peak_hours. rewrite index_agg. apply (groupby_index hour).
  - apply (Permutation_NoDup (Permutation_sym Hs)), groupby_NoDup.
  - intros Hin. apply (groupby_index service_type).
    apply (Permutation_in _ Hs), Hin.
  - intros Hin. apply (Permutation_in _ (Permutation_sym Hs)).
    apply (groupby_index service_type), Hin.
  - unfold daily_trend. rewrite index_agg. apply groupby_NoDup.
  - unfold daily_trend. rewrite index_agg. apply (groupby_index date).
  - unfold daily_trend. rewrite index_agg. apply (groupby_index date).
Qed.
End Keys.

(** ** Sample frames *)

(** The three records of the worked example; dates are day numbers. *)
Definition example_df : DataFrame :=
  [ mkRec 19723 "A" 9 2 100 "X";
    mkRec 19723 "A" 9 1 50 "Y";
    mkRec 19724 "B" 14 4 200 "X" ].

(** A branch that took money without any appointment. *)
Definition idle_df : DataFrame := [ mkRec 19723 "A" 9 0 100 "X" ].

(** Two branches with the same revenue, at two hours with the same mean. *)
Definition tied_df : DataFrame :=
  [ mkRec 19723 "A" 9 2 100 "X"; mkRec 19723 "B" 14 2 100 "X" ].

(** A revenue of an eighth: three decimals, and exact in binary. *)
Definition eighth_df : DataFrame := [ mkRec 19723 "A" 9 1 (1 # 8) "X" ].

Lemma example_df_two_decimals :
  Forall (fun r => two_decimals (revenue r)) example_df.
Proof.
  unfold example_df.
  repeat apply Forall_cons; try apply Forall_nil; simpl.
  - exists 10000. reflexivity.
  - exists 5000. reflexivity.
  - exists 20000. reflexivity.
Qed.

Lemma branch_summary_totals_witness :
  (sum_float (map (column Branch.total_revenue)
                  (@branch_summary stable_sort example_df))
   == sum_float (map revenue example_df))%Q.
Proof.
  apply (@branch_summary_totals stable_sort example_df).
  exact example_df_two_decimals.
Defined.

(** ** Revenue per appointment *)

Section RevenuePerAppointment.
Context `{SortValues}.

(** C3, as the program has it.  In every row of the Branch Summary,
    [revenue_per_appointment] is [total_revenue / total_appointments]
    rounded to two decimals when [total_appointments] is not zero.  When it
    is zero the division does not raise and the field is [NaN] only if
    [total_revenue] is zero too; otherwise it is an infinity with the sign
    of [total_revenue]. *)
Theorem revenue_per_appointment_spec (df : DataFrame) (k : string)
        (r : Branch.row) :
  In (k, r) (branch_summary df) ->
  (Branch.total_appointments r <> 0 ->
   Branch.revenue_per_appointment r
   = Finite (round2 (Branch.total_revenue r
                     / inject_Z (Branch.total_appointments r))))
  /\ (Branch.total_appointments r = 0 ->
      Branch.revenue_per_appointment r
      = match (Branch.total_revenue r ?= 0)%Q with
        | Eq => NaN
        | Gt => PosInf
        | Lt => NegInf
        end).
Proof.
  intros Hin. apply branch_summary_In in Hin. destruct Hin as [_ ->].
  unfold branch_row. simpl. unfold fdiv. split; intros Hta.
  - apply Z.eqb_neq in Hta. rewrite Hta. reflexivity.
  - rewrite Hta. simpl.
    destruct (round2 (sum_float (map revenue (rows_of_branch k df))) ?= 0)%Q;
      reflexivity.
Qed.
End RevenuePerAppointment.

Lemma revenue_per_appointment_spec_witness :
  Branch.revenue_per_appointment
    (Branch.mk 3 (15000 # 100) (7500 # 100) (Finite (5000 # 100)))
  = Finite (round2 ((15000 # 100) / inject_Z 3)).
Proof.
  refine (proj1 (@revenue_per_appointment_spec stable_sort example_df "A"
                   (Branch.mk 3 (15000 # 100) (7500 # 100)
                              (Finite (5000 # 100))) _) _).
  - right. left. reflexivity.
  - simpl. lia.
Defined.

(** C3 as stated fails: a branch with revenue and no appointment gets
    positive infinity, which is not a null marker. *)
Lemma revenue_per_appointment_infinite :
  @branch_summary stable_sort idle_df
  = [("A"%string, Branch.mk 0 (10000 # 100) (10000 # 100) PosInf)]
  /\ isna PosInf = false.
Proof.
  split; reflexivity.
Qed.

(** ** The empty frame *)

Lemma sort_values_nil `{SortValues} (A : Type) (col : A -> Q) :
  sort_values_desc col [] = [].
Proof.
  apply Permutation_nil, Permutation_sym, sort_values_perm.
Qed.

Section Empty.
Context `{SortValues}.

(** C4, as the program has it.  On the empty frame the four tables are
    empty, and the two KPI look-ups raise the library's [ValueError]; they
    return no key. *)
Theorem empty_dataset :
  branch_summary [] = []
  /\ peak_hours [] = []
  /\ service_breakdown [] = []
  /\ daily_trend [] = []
  /\ best_branch []
     = Raise (ValueError "attempt to get argmax of an empty sequence")
  /\ peak_hour []
     = Raise (ValueError "attempt to get argmax of an empty sequence").
Proof.
  assert (Hb : branch_summary [] = []).
  { unfold branch_summary. simpl. apply sort_values_nil. }
  repeat split.
  - exact Hb.
  - unfold service_breakdown. simpl. apply sort_values_nil.
  - unfold best_branch. rewrite Hb. reflexivity.
Qed.
End Empty.

(** C4 as stated fails: what is raised is not [EmptyDatasetError]. *)
Lemma empty_dataset_not_EmptyDatasetError :
  @best_branch stable_sort [] <> Raise EmptyDatasetError
  /\ peak_hour [] <> Raise EmptyDatasetError.
Proof.
  split; discriminate.
Qed.

(** ** Order of the Branch Summary *)


Section BranchOrder.
Context `{SortValues}.

Lemma branch_summary_desc (df : DataFrame) :
  StronglySorted
    (fun x y => (column Branch.total_revenue y
                 <= column Branch.total_revenue x)%Q)
    (branch_summary df).
Proof.
  unfold branch_summary. apply sort_values_sorted.
Qed.

End BranchOrder.


(** ** Rounding of the output columns *)

Lemma not_two_decimals_eighth : ~ two_decimals (1 # 8).
Proof.
  intros [n Hn]. unfold Qeq in Hn. simpl in Hn. lia.
Qed.

Section Rounding.
Context `{SortValues}.

(** C6, as the program has it.  [branch_summary] and [peak_hours] round:
    their sums, means and the ratio are written with two decimals (an
    infinite or NaN ratio stays as it is).  [service_breakdown] and
    [daily_trend] do not round: their revenue columns are the plain sums
    of the group.  The count columns are the integer sums of
    [appointments]. *)
Theorem output_rounding (df : DataFrame) :
  (forall b r, In (b, r) (branch_summary df) ->
     two_decimals (Branch.total_revenue r)
     /\ two_decimals (Branch.avg_daily_revenue r)
     /\ match Branch.revenue_per_appointment r with
        | Finite q => two_decimals q
        | _ => True
        end
     /\ Branch.total_appointments r
        = sum_int (map appointments (rows_of_branch b df)))
  /\ (forall h r, In (h, r) (peak_hours df) ->
        two_decimals (Hourly.avg_appointments r)
        /\ two_decimals (Hourly.avg_revenue r))
  /\ (forall s r, In (s, r) (service_breakdown df) ->
        Service.total_revenue r
        = sum_float (map revenue (rows_of_service s df))
        /\ Service.total_appointments r
           = sum_int (map appointments (rows_of_service s df)))
  /\ (forall d r, In (d, r) (daily_trend df) ->
        Daily.daily_revenue r = sum_float (map revenue (rows_of_date d df))
        /\ Daily.daily_appointments r
           = sum_int (map appointments (rows_of_date d df))).
Proof.
  split; [|split; [|split]].
  - intros b r Hin. apply branch_summary_In in Hin. destruct Hin as [_ ->].
    unfold branch_row. simpl.
    repeat split; try apply round2_two_decimals.
    unfold fdiv.
    destruct (sum_int (map appointments (rows_of_branch b df)) =? 0).
    + destruct (round2 (sum_float (map revenue (rows_of_branch b df))) ?= 0)%Q;
        exact I.
    + simpl. apply round2_two_decimals.
  - intros h r Hin. apply peak_hours_In in Hin. destruct Hin as [_ ->].
    split; apply round2_two_decimals.
  - intros s r Hin. apply service_breakdown_In in Hin.
    destruct Hin as [_ ->].
    split; reflexivity.
  - intros d r Hin. apply daily_trend_In in Hin. destruct Hin as [_ ->].
    split; reflexivity.
Qed.
End Rounding.

Lemma output_rounding_witness :
  two_decimals (Branch.total_revenue
                  (Branch.mk 4 (20000 # 100) (20000 # 100)
                             (Finite (5000 # 100)))).
Proof.
  refine (proj1 (proj1 (@output_rounding stable_sort example_df) "B"%string
                   (Branch.mk 4 (20000 # 100) (20000 # 100)
                              (Finite (5000 # 100))) _)).
  left. reflexivity.
Defined.

(** C6 as stated fails: the Service Breakdown and the Daily Trend carry a
    revenue of an eighth through with its three decimals. *)
Lemma service_breakdown_unrounded :
  @service_breakdown stable_sort eighth_df
  = [("X"%string, Service.mk (1 # 8) 1)]
  /\ daily_trend eighth_df = [(19723, Daily.mk (1 # 8) 1)]
  /\ ~ two_decimals (1 # 8).
Proof.
  split; [reflexivity|]. split; [reflexivity|].
  exact not_two_decimals_eighth.
Qed.

(** ** Peak Hours *)

Lemma groupby_nonempty_rows (df : DataFrame) (h : Z) :
  In h (map hour df) -> rows_of_hour h df <> [].
Proof.
  intros Hin Hnil. apply in_map_iff in Hin. destruct Hin as [r [Hr Hin]].
  assert (Hf : In r (rows_of_hour h df)).
  { apply filter_In. split; [exact Hin|]. apply Z.eqb_eq, Hr. }
  rewrite Hnil in Hf. exact Hf.
Qed.

Lemma StronglySorted_klt_Zlt (l : list Z) :
  StronglySorted klt l -> StronglySorted Z.lt l.
Proof.
  induction 1 as [|a l Hs IH Hall]; constructor; [exact IH|].
  eapply Forall_impl; [|exact Hall].
  intros b Hb. exact Hb.
Qed.

(** C7.  The keys of the Peak Hours table are the hours that occur in the
    records, each once and in ascending order; no absent hour is filled
    in.  They lie in 0..23 since the hours of records do (the program does
    not check the hour column itself).  The
    [avg_appointments] of an hour is the mean of [appointments] over
    exactly the records with that hour, of which there is at least one,
    rounded to two decimals. *)
Theorem peak_hours_spec (df : DataFrame) :
  (Forall (fun r => 0 <= hour r <= 23) df ->
   Forall (fun h => 0 <= h <= 23) (index (peak_hours df)))
  /\ (forall h, In h (index (peak_hours df)) <-> In h (map hour df))
  /\ StronglySorted Z.lt (index (peak_hours df))
  /\ (forall h r, In (h, r) (peak_hours df) ->
        rows_of_hour h df <> []
        /\ Hourly.avg_appointments r
           = round2 (mean_int (map appointments (rows_of_hour h df)))).
Proof.
  assert (Hidx : forall h, In h (index (peak_hours df)) <-> In h (map hour df)).
  { intros h. unfold peak_hours. rewrite index_agg.
    apply (groupby_index hour). }
  split; [|split; [exact Hidx|split]].
  - intros Hvalid. apply Forall_forall. intros h Hh. apply Hidx in Hh.
    apply in_map_iff in Hh. destruct Hh as [r [<- Hr]].
    rewrite Forall_forall in Hvalid. apply Hvalid, Hr.
  - unfold peak_hours. rewrite index_agg.
    apply StronglySorted_klt_Zlt, groupby_sorted.
  - intros h r Hin. apply peak_hours_In in Hin. destruct Hin as [Hh ->].
    split; [apply groupby_nonempty_rows, Hh|reflexivity].
Qed.

Lemma peak_hours_spec_witness :
  Forall (fun h => 0 <= h <= 23) (index (peak_hours example_df)).
Proof.
  apply (proj1 (peak_hours_spec example_df)).
  unfold example_df.
  repeat apply Forall_cons; try apply Forall_nil; simpl; lia.
Defined.

(** ** [idxmax] *)

Section IdxMax.
Variable K : Type.

(** The scan keeps the first entry of the greatest value seen: the entries
    before it are smaller, the entries after it are not greater. *)
Lemma first_max_split (s : table K Q) :
  forall (best : K * Q) (pre mid : table K Q),
    (forall x, In x pre -> (snd x < snd best)%Q) ->
    (forall x, In x mid -> (snd x <= snd best)%Q) ->
    exists pre' v post',
      pre ++ best :: mid ++ s = pre' ++ (first_max best s, v) :: post'
      /\ (forall x, In x pre' -> (snd x < v)%Q)
      /\ (forall x, In x post' -> (snd x <= v)%Q).
Proof.
  induction s as [|kv rest IH]; intros best pre mid Hpre Hmid; simpl.
  - exists pre, (snd best), mid. rewrite app_nil_r.
    destruct best as [k v]. simpl. repeat split; assumption.
  - destruct (snd kv ?= snd best)%Q eqn:E.
    + destruct (IH best pre (mid ++ [kv]) Hpre) as [pre' [v [post' [Heq Hs]]]].
      * intros x Hx. apply in_app_or in Hx. destruct Hx as [Hx|[<-|[]]].
        -- apply Hmid, Hx.
        -- apply Qeq_alt in E. rewrite E. apply Qle_refl.
      * exists pre', v, post'. rewrite <- app_assoc in Heq. simpl in Heq.
        split; assumption.
    + destruct (IH best pre (mid ++ [kv]) Hpre) as [pre' [v [post' [Heq Hs]]]].
      * intros x Hx. apply in_app_or in Hx. destruct Hx as [Hx|[<-|[]]].
        -- apply Hmid, Hx.
        -- apply Qlt_le_weak. rewrite Qlt_alt. exact E.
      * exists pre', v, post'. rewrite <- app_assoc in Heq. simpl in Heq.
        split; assumption.
    + apply Qgt_alt in E.
      destruct (IH kv (pre ++ best :: mid) []) as [pre' [v [post' [Heq Hs]]]].
      * intros x Hx. apply in_app_or in Hx. destruct Hx as [Hx|[<-|Hx]].
        -- eapply Qlt_trans; [apply Hpre, Hx|exact E].
        -- exact E.
        -- eapply Qle_lt_trans; [apply Hmid, Hx|exact E].
      * intros x [].
      * exists pre', v, post'. rewrite <- app_assoc in Heq. simpl in Heq.
        split; assumption.
Qed.

(** On a series with at least one entry, [idxmax] returns the label of an
    entry with no greater entry after it and only smaller ones before. *)
Lemma idxmax_first (s : table K Q) :
  s <> [] ->
  exists k pre v post,
    idxmax s = Ok k
    /\ s = pre ++ (k, v) :: post
    /\ (forall x, In x pre -> (snd x < v)%Q)
    /\ (forall x, In x post -> (snd x <= v)%Q).
Proof.
  destruct s as [|kv rest]; [congruence|]. intros _.
  destruct (first_max_split rest kv [] []) as [pre [v [post [Heq Hs]]]].
  - intros x [].
  - intros x [].
  - simpl in Heq. exists (first_max kv rest), pre, v, post.
    split; [reflexivity|]. split; assumption.
Qed.
End IdxMax.

Lemma groupby_not_nil {K} `{KeyOrder K} (key : Rec -> K) (df : DataFrame) :
  df <> [] -> groupby key df <> [].
Proof.
  destruct df as [|r df]; [congruence|]. intros _ Hnil.
  assert (Hin : In (key r) (index (groupby key (r :: df)))).
  { apply groupby_index. left. reflexivity. }
  rewrite Hnil in Hin. exact Hin.
Qed.

Lemma series_In {K V} (f : V -> Q) (t : table K V) (k : K) (v : Q) :
  In (k, v) (series f t) <-> exists r, In (k, r) t /\ v = f r.
Proof.
  unfold series. rewrite in_map_iff. split.
  - intros [[k0 r] [E Hin]]. simpl in E. inversion E; subst.
    exists r. split; [exact Hin|reflexivity].
  - intros [r [Hin ->]]. exists (k, r). split; [reflexivity|exact Hin].
Qed.

(** A series splits where its table does. *)
Lemma series_split {K V} (f : V -> Q) (t : table K V) (pre post : table K Q)
      (k : K) (v : Q) :
  series f t = pre ++ (k, v) :: post ->
  exists tpre r tpost,
    t = tpre ++ (k, r) :: tpost
    /\ pre = series f tpre /\ v = f r /\ post = series f tpost.
Proof.
  revert pre. induction t as [|[k0 r0] t IH]; intros pre Heq.
  - destruct pre; discriminate.
  - destruct pre as [|p pre]; simpl in Heq.
    + inversion Heq; subst. exists [], r0, t. repeat split.
    + inversion Heq as [[Hp Hrest]].
      destruct (IH pre Hrest) as [tpre [r [tpost [-> [-> [-> ->]]]]]].
      exists ((k0, r0) :: tpre), r, tpost. repeat split.
Qed.

Lemma StronglySorted_middle {A} (R : A -> A -> Prop) (l1 l2 : list A) (a : A) :
  StronglySorted R (l1 ++ a :: l2) ->
  Forall (fun x => R x a) l1 /\ Forall (R a) l2.
Proof.
  induction l1 as [|x l1 IH]; simpl; intros Hs.
  - apply StronglySorted_inv in Hs. split; [constructor|apply Hs].
  - apply StronglySorted_inv in Hs. destruct Hs as [Hs Hall].
    destruct (IH Hs) as [H1 H2]. split; [|exact H2].
    constructor; [|exact H1].
    rewrite Forall_forall in Hall. apply Hall.
    apply in_or_app. right. left. reflexivity.
Qed.

(** ** Ties in the KPI look-ups *)

Section KpiTies.
Context `{SortValues}.

(** C10.  On a frame with at least one record both look-ups return a key.
    The best branch is the key of the first row of the Branch Summary, and
    no row has a greater [total_revenue]: among branches tied for the
    maximum it is the one the table lists first.  The peak hour is a key
    of the Peak Hours table of greatest [avg_appointments], and no hour
    tied with it is smaller. *)
Theorem kpi_tie_break (df : DataFrame) :
  df <> [] ->
  (exists b r rest,
      best_branch df = Ok b
      /\ branch_summary df = (b, r) :: rest
      /\ forall b' r', In (b', r') (branch_summary df) ->
           (Branch.total_revenue r' <= Branch.total_revenue r)%Q)
  /\ (exists h r,
        peak_hour df = Ok h
        /\ In (h, r) (peak_hours df)
        /\ (forall h' r', In (h', r') (peak_hours df) ->
              (Hourly.avg_appointments r' <= Hourly.avg_appointments r)%Q)
        /\ (forall h' r', In (h', r') (peak_hours df) ->
              (Hourly.avg_appointments r' == Hourly.avg_appointments r)%Q ->
              h <= h')).
Proof.
  intros Hne. split.
  - assert (Hs : series Branch.total_revenue (branch_summary df) <> []).
    { intros Hnil. apply (f_equal (@List.length _)) in Hnil.
      unfold series in Hnil. rewrite length_map in Hnil.
      rewrite (Permutation_length (branch_summary_perm df)) in Hnil.
      unfold agg in Hnil. rewrite length_map in Hnil. simpl in Hnil.
      apply length_zero_iff_nil in Hnil.
      exact (groupby_not_nil branch Hne Hnil). }
    destruct (idxmax_first Hs) as [b [pre [v [post [Hidx [Hsplit [Hpre Hpost]]]]]]].
    destruct (@series_split _ _ _ _ _ _ _ _ Hsplit) as [tpre [r [tpost [Ht [-> [-> ->]]]]]].
    pose proof (branch_summary_desc df) as Hsorted.
    rewrite Ht in Hsorted.
    apply StronglySorted_middle in Hsorted. destruct Hsorted as [Hbefore _].
    assert (Hnil : tpre = []).
    { destruct tpre as [|[k0 r0] tpre]; [reflexivity|exfalso].
      apply Forall_inv in Hbefore. unfold column in Hbefore. simpl in Hbefore.
      specialize (Hpre (k0, Branch.total_revenue r0) (or_introl eq_refl)).
      simpl in Hpre. apply (Qlt_irrefl (Branch.total_revenue r)).
      eapply Qle_lt_trans; eassumption. }
    subst tpre. simpl in Ht.
    exists b, r, tpost. split; [exact Hidx|]. split; [exact Ht|].
    intros b' r' Hin. rewrite Ht in Hin. destruct Hin as [Hin|Hin].
    + inversion Hin; subst. apply Qle_refl.
    + apply (Hpost (b', Branch.total_revenue r')).
      apply series_In. exists r'. split; [exact Hin|reflexivity].
  - assert (Hs : series Hourly.avg_appointments (peak_hours df) <> []).
    { intros Hnil. apply (f_equal (@List.length _)) in Hnil.
      unfold series, peak_hours, agg in Hnil. rewrite !length_map in Hnil.
      simpl in Hnil. apply length_zero_iff_nil in Hnil.
      exact (groupby_not_nil hour Hne Hnil). }
    destruct (idxmax_first Hs) as [h [pre [v [post [Hidx [Hsplit [Hpre Hpost]]]]]]].
    destruct (@series_split _ _ _ _ _ _ _ _ Hsplit) as [tpre [r [tpost [Ht [-> [-> ->]]]]]].
    assert (Hsorted : StronglySorted Z.lt (index (peak_hours df))).
    { unfold peak_hours. rewrite index_agg.
      apply StronglySorted_klt_Zlt, groupby_sorted. }
    rewrite Ht in Hsorted. unfold index in Hsorted.
    rewrite map_app in Hsorted. simpl in Hsorted.
    apply StronglySorted_middle in Hsorted. destruct Hsorted as [_ Hafter].
    rewrite Forall_forall in Hafter.
    exists h, r. split; [exact Hidx|]. split.
    { rewrite Ht. apply in_or_app. right. left. reflexivity. }
    split.
    + intros h' r' Hin. rewrite Ht in Hin.
      apply in_app_or in Hin. destruct Hin as [Hin|[Hin|Hin]].
      * apply Qlt_le_weak.
        apply (Hpre (h', Hourly.avg_appointments r')).
        apply series_In. exists r'. split; [exact Hin|reflexivity].
      * inversion Hin; subst. apply Qle_refl.
      * apply (Hpost (h', Hourly.avg_appointments r')).
        apply series_In. exists r'. split; [exact Hin|reflexivity].
    + intros h' r' Hin Htie. rewrite Ht in Hin.
      apply in_app_or in Hin. destruct Hin as [Hin|[Hin|Hin]].
      * exfalso.
        assert (Hlt : (Hourly.avg_appointments r'
                       < Hourly.avg_appointments r)%Q).
        { apply (Hpre (h', Hourly.avg_appointments r')).
          apply series_In. exists r'. split; [exact Hin|reflexivity]. }
        rewrite Htie in Hlt. exact (Qlt_irrefl _ Hlt).
      * inversion Hin; subst. lia.
      * apply Z.lt_le_incl, Hafter.
        apply (in_map fst) in Hin. exact Hin.
Qed.
End KpiTies.

(** Two hours with the same mean, and two branches with the same revenue. *)
Lemma kpi_tie_break_witness :
  exists h r,
    peak_hour tied_df = Ok h
    /\ In (h, r) (peak_hours tied_df)
    /\ (forall h' r', In (h', r') (peak_hours tied_df) ->
          (Hourly.avg_appointments r' <= Hourly.avg_appointments r)%Q)
    /\ (forall h' r', In (h', r') (peak_hours tied_df) ->
          (Hourly.avg_appointments r' == Hourly.avg_appointments r)%Q ->
          h <= h').
Proof.
  apply (@kpi_tie_break stable_sort tied_df). unfold tied_df. discriminate.
Defined.

(** On [tied_df] the peak hour is the earlier of the two tied hours, and
    the best branch is the tied branch the sort lists first. *)
Example kpi_tie_break_tied_df :
  peak_hour tied_df = Ok 9
  /\ @best_branch stable_sort tied_df = Ok "A"%string.
Proof.
  repeat split.
Qed.

(** ** Loading *)

(** C8, as the program has it.  [load_data] raises [FileNotFoundError]
    with the path when the file is absent, [EmptyDataError] when it has no
    header, and [ValueError] when it has no [date] column.  In every other
    case it prints the number of rows and returns the frame as read: the
    other five columns are not looked for, and no field is checked. *)
Theorem load_data_outcome (fs : FileSystem) (filepath : string) :
  match fs filepath with
  | None => load_data fs filepath = ([], Raise (FileNotFoundError filepath))
  | Some f =>
      match header f with
      | [] => load_data fs filepath = ([], Raise EmptyDataError)
      | _ =>
          if has_column "date" (header f)
          then load_data fs filepath
               = ([PrintLoaded (List.length (body f)) filepath],
                  Ok (mkFrame (header f) (body f)))
          else load_data fs filepath
               = ([], Raise (ValueError
                    "Missing column provided to 'parse_dates': 'date'"))
      end
  end.
Proof.
  unfold load_data, read_csv.
  destruct (fs filepath) as [f|]; [|reflexivity].
  destruct (header f) as [|c cols]; [reflexivity|].
  cbn [find]. destruct (has_column "date" (c :: cols)); reflexivity.
Qed.

(** A file with no [branch] column and a word where a count should be. *)
Definition bad_file : CsvFile :=
  mkCsv [ "date"; "hour"; "appointments"; "revenue"; "service_type" ]%string
        [ [ DateCell 19723; IntCell 9; TextCell "many"; IntCell 100;
            TextCell "X" ] ].

Definition bad_fs : FileSystem :=
  fun path => if String.eqb path DATA_FILE then Some bad_file else None.

Definition no_fs : FileSystem := fun _ => None.

(** C8 as stated fails: the file that lacks a column and holds a malformed
    value is loaded, and the absent file raises [FileNotFoundError]. *)
Lemma load_data_accepts_bad_file :
  has_column "branch" (header bad_file) = false
  /\ load_data bad_fs DATA_FILE
     = ([PrintLoaded 1 DATA_FILE],
        Ok (mkFrame (header bad_file) (body bad_file)))
  /\ load_data no_fs DATA_FILE = ([], Raise (FileNotFoundError DATA_FILE)).
Proof.
  repeat split.
Qed.

(** ** The run *)

Section Run.
Context `{SortValues} `{Plotting}.

(** What a run that ends well has done, in order: [n] is the number of
    rows loaded, [df] the rows, [k] the KPI figures, [timestamp] the time
    of the run. *)
Definition successful_trace (n : nat) (df : DataFrame) (k : Kpis)
    (timestamp : string) : list event :=
  let output_path :=
    path_join OUTPUT_DIR ("dashboard_" ++ timestamp ++ ".png") in
  [ MakeDirs OUTPUT_DIR;
    PrintLoaded n DATA_FILE;
    PrintHeading "Branch Summary";
    PrintTable (BranchSummary (branch_summary df));
    PrintHeading "Peak Hours";
    PrintTable (PeakHours (peak_hours df));
    PrintHeading "Service Breakdown";
    PrintTable (ServiceBreakdown (service_breakdown df));
    ToCsv (path_join OUTPUT_DIR "branch_summary.csv")
          (BranchSummary (branch_summary df));
    ToCsv (path_join OUTPUT_DIR "peak_hours.csv") (PeakHours (peak_hours df));
    ToCsv (path_join OUTPUT_DIR "service_breakdown.csv")
          (ServiceBreakdown (service_breakdown df));
    PrintExported;
    Draw (BranchSummary (branch_summary df));
    Draw (PeakHours (peak_hours df));
    Draw (ServiceBreakdown (service_breakdown df));
    Draw (DailyTrend (daily_trend df));
    DrawKpis k;
    SaveFig output_path;
    PrintSaved output_path;
    Show ].

(** C9, as the program has it.  A run that ends well prints, after the
    load message and before any report is exported or the image is saved,
    three tables: the Branch Summary, the Peak Hours and the Service
    Breakdown, each under its heading.  The Daily Trend is computed for
    its panel of the image and is not printed. *)
Theorem main_trace (fs : FileSystem) (timestamp : string) :
  snd (main fs timestamp) = Ok tt ->
  exists fr df k,
    read_csv fs DATA_FILE ["date"%string] = Ok fr
    /\ as_records fr = Ok df
    /\ kpis df = Ok k
    /\ fst (main fs timestamp)
       = successful_trace (List.length (cells fr)) df k timestamp.
Proof.
  unfold main, load_data, generate_dashboard, export_csv_reports, draw.
  destruct (read_csv fs DATA_FILE ["date"%string]) as [fr|e] eqn:Hload;
    cbv [bind emit lift ret snd fst app]; [|discriminate].
  destruct (as_records fr) as [df|e] eqn:Hrec;
    cbv [bind emit lift ret snd fst app]; [|discriminate].
  destruct (plot (BranchSummary (branch_summary df))) as [[]|e];
    cbv [bind emit lift ret snd fst app]; [|discriminate].
  destruct (plot (PeakHours (peak_hours df))) as [[]|e];
    cbv [bind emit lift ret snd fst app]; [|discriminate].
  destruct (plot (ServiceBreakdown (service_breakdown df))) as [[]|e];
    cbv [bind emit lift ret snd fst app]; [|discriminate].
  destruct (plot (DailyTrend (daily_trend df))) as [[]|e];
    cbv [bind emit lift ret snd fst app]; [|discriminate].
  destruct (kpis df) as [k|e] eqn:Hk;
    cbv [bind emit lift ret snd fst app]; [|discriminate].
  intros _. exists fr, df, k. repeat split; assumption.
Qed.
End Run.

(** The worked example as a file. *)
Definition example_file : CsvFile :=
  mkCsv [ "date"; "branch"; "hour"; "appointments"; "revenue";
          "service_type" ]%string
        [ [ DateCell 19723; TextCell "A"; IntCell 9; IntCell 2; IntCell 100;
            TextCell "X" ];
          [ DateCell 19723; TextCell "A"; IntCell 9; IntCell 1; IntCell 50;
            TextCell "Y" ];
          [ DateCell 19724; TextCell "B"; IntCell 14; IntCell 4; IntCell 200;
            TextCell "X" ] ].

Definition example_fs : FileSystem :=
  fun path => if String.eqb path DATA_FILE then Some example_file else None.

Definition is_daily_trend_print (e : event) : bool :=
  match e with
  | PrintTable (DailyTrend _) => true
  | _ => false
  end.

Lemma main_trace_witness :
  exists fr df k,
    read_csv example_fs DATA_FILE ["date"%string] = Ok fr
    /\ as_records fr = Ok df
    /\ @kpis stable_sort df = Ok k
    /\ fst (@main stable_sort checked_plot example_fs "20240102_120000")
       = @successful_trace stable_sort (List.length (cells fr)) df k
           "20240102_120000".
Proof.
  apply (@main_trace stable_sort checked_plot example_fs "20240102_120000").
  reflexivity.
Defined.

(** C9 as stated fails: the run on the worked example ends well and
    prints no Daily Trend table. *)
Lemma main_prints_three_tables :
  snd (@main stable_sort checked_plot example_fs "20240102_120000") = Ok tt
  /\ existsb is_daily_trend_print
       (fst (@main stable_sort checked_plot example_fs "20240102_120000")) = false
  /\ List.length
       (filter (fun e => match e with PrintTable _ => true | _ => false end)
               (fst (@main stable_sort checked_plot example_fs "20240102_120000")))
     = 3%nat.
Proof.
  repeat split.
Qed.

(** ** Ties under a stable sort

    Were [sort_values] stable, rows of equal [total_revenue] would keep the
    ascending label order [groupby] gives them. *)
Section StableTies.
Variable V : Type.
Variable col : string * V -> Q.

(** Descending by the column, ascending by label within a tie. *)
Definition desc_then_label (x y : string * V) : Prop :=
  (col y < col x)%Q \/ ((col y == col x)%Q /\ klt (fst x) (fst y)).

Lemma desc_then_label_le (x y : string * V) :
  desc_then_label x y -> (col y <= col x)%Q.
Proof.
  intros [Hlt|[Heq _]]; [apply Qlt_le_weak, Hlt|].
  rewrite Heq. apply Qle_refl.
Qed.

Lemma insert_before_tie (x : string * V) (l : table string V) :
  Forall (fun y => klt (fst x) (fst y)) l ->
  StronglySorted desc_then_label l ->
  StronglySorted desc_then_label (insert_before col x l).
Proof.
  induction l as [|y l IH]; simpl; intros Hkeys Hs.
  - repeat constructor.
  - pose proof Hs as Hs'.
    apply StronglySorted_inv in Hs. destruct Hs as [Hs Hall].
    assert (Hfront : (col y <= col x)%Q ->
                     StronglySorted desc_then_label (x :: y :: l)).
    { intros Hle. constructor; [exact Hs'|].
      rewrite Forall_forall in *. intros z Hz.
      assert (Hzx : (col z <= col x)%Q).
      { destruct Hz as [<-|Hz]; [exact Hle|].
        eapply Qle_trans; [apply desc_then_label_le, Hall, Hz|exact Hle]. }
      apply Qle_lt_or_eq in Hzx. destruct Hzx as [Hlt|Heq].
      - left. exact Hlt.
      - right. split; [exact Heq|apply Hkeys, Hz]. }
    destruct (col x ?= col y)%Q eqn:E.
    + apply Hfront, Qcompare_not_Lt. rewrite E. discriminate.
    + constructor.
      * apply IH; [apply Forall_inv_tail in Hkeys; exact Hkeys|exact Hs].
      * apply (Permutation_Forall (Permutation_sym (insert_before_perm col x l))).
        constructor; [|exact Hall].
        left. rewrite Qlt_alt. exact E.
    + apply Hfront, Qcompare_not_Lt. rewrite E. discriminate.
Qed.

Lemma stable_sort_desc_tie (l : table string V) :
  StronglySorted klt (index l) ->
  StronglySorted desc_then_label (stable_sort_desc col l).
Proof.
  unfold index. induction l as [|x l IH]; simpl; intros Hs.
  - constructor.
  - apply StronglySorted_inv in Hs. destruct Hs as [Hs Hall].
    apply insert_before_tie; [|apply IH, Hs].
    apply (Permutation_Forall (Permutation_sym (stable_sort_desc_perm col l))).
    rewrite Forall_forall in *. intros y Hy.
    apply Hall. apply (in_map fst) in Hy. exact Hy.
Qed.
End StableTies.

(** With the stable sort the Branch Summary is descending by
    [total_revenue] and ascending by label within a tie. *)
Lemma branch_summary_stable_ties (df : DataFrame) :
  StronglySorted (desc_then_label (column Branch.total_revenue))
                 (@branch_summary stable_sort df).
Proof.
  unfold branch_summary. simpl sort_values_desc.
  apply stable_sort_desc_tie.
  unfold index, agg. rewrite !map_map. simpl.
  apply (groupby_sorted branch df).
Qed.

(** * Further properties of the aggregators *)

(** ** Totals of the Service Breakdown and the Daily Trend *)

Section SumTables.
Context `{SortValues}.

(** X1.  The Service Breakdown is in descending order of [total_revenue],
    and it loses nothing: its [total_revenue] column adds up to the revenue
    of all records (no rounding is applied) and its [total_appointments]
    column to the appointments of all records. *)
Theorem service_breakdown_totals (df : DataFrame) :
  StronglySorted
    (fun x y => (column Service.total_revenue y
                 <= column Service.total_revenue x)%Q)
    (service_breakdown df)
  /\ (sum_float (map (column Service.total_revenue) (service_breakdown df))
      == sum_float (map revenue df))%Q
  /\ sum_int (map (column Service.total_appointments) (service_breakdown df))
     = sum_int (map appointments df).
Proof.
  pose proof (service_breakdown_perm df) as Hp.
  split; [|split].
  - unfold service_breakdown. apply sort_values_sorted.
  - rewrite (sum_float_perm (Permutation_map _ Hp)).
    unfold agg. rewrite map_map. simpl.
    apply (groupby_sum_float service_type revenue df).
  - rewrite (sum_int_perm (Permutation_map _ Hp)).
    unfold agg. rewrite map_map. simpl.
    apply (groupby_sum_int service_type appointments df).
Qed.
End SumTables.

(** X2.  The Daily Trend has its dates in strictly ascending order, and its
    two columns add up to the revenue and the appointments of all
    records. *)
Theorem daily_trend_totals (df : DataFrame) :
  StronglySorted Z.lt (index (daily_trend df))
  /\ (sum_float (map (column Daily.daily_revenue) (daily_trend df))
      == sum_float (map revenue df))%Q
  /\ sum_int (map (column Daily.daily_appointments) (daily_trend df))
     = sum_int (map appointments df).
Proof.
  unfold daily_trend. split; [|split].
  - rewrite index_agg. apply StronglySorted_klt_Zlt, groupby_sorted.
  - unfold agg. rewrite map_map. simpl.
    apply (groupby_sum_float date revenue df).
  - unfold agg. rewrite map_map. simpl.
    apply (groupby_sum_int date appointments df).
Qed.

(** ** Bounds on the rounded means *)

Lemma rint_ge (n : Z) (x : Q) : (inject_Z n <= x)%Q -> n <= rint x.
Proof.
  intros Hle. unfold rint.
  assert (Hf : n <= Qfloor x).
  { rewrite <- (Qfloor_Z n). apply Qfloor_resp_le, Hle. }
  destruct (x - inject_Z (Qfloor x) ?= 1 # 2)%Q;
    [destruct (Z.even (Qfloor x))| |]; lia.
Qed.

Lemma rint_le (n : Z) (x : Q) : (x <= inject_Z n)%Q -> rint x <= n.
Proof.
  intros Hle. apply Qle_lt_or_eq in Hle. destruct Hle as [Hlt|Heq].
  - assert (Hf : Qfloor x < n).
    { rewrite Zlt_Qlt. eapply Qle_lt_trans; [apply Qfloor_le|exact Hlt]. }
    unfold rint.
    destruct (x - inject_Z (Qfloor x) ?= 1 # 2)%Q;
      [destruct (Z.even (Qfloor x))| |]; lia.
  - rewrite Heq, rint_inject_Z. lia.
Qed.

Lemma hundredfold (n : Z) (x : Q) :
  (inject_Z n <= x)%Q -> (inject_Z (n * 100) <= x * 100)%Q.
Proof.
  intros Hle. rewrite inject_Z_mult. change (inject_Z 100) with 100%Q. lra.
Qed.

Lemma hundredfold_le (n : Z) (x : Q) :
  (x <= inject_Z n)%Q -> (x * 100 <= inject_Z (n * 100))%Q.
Proof.
  intros Hle. rewrite inject_Z_mult. change (inject_Z 100) with 100%Q. lra.
Qed.

(** Rounding to two decimals does not cross an integer. *)
Lemma round2_ge (n : Z) (x : Q) :
  (inject_Z n <= x)%Q -> (inject_Z n <= round2 x)%Q.
Proof.
  intros Hle. apply hundredfold, rint_ge in Hle.
  unfold round2, Qle, inject_Z. simpl. lia.
Qed.

Lemma round2_le (n : Z) (x : Q) :
  (x <= inject_Z n)%Q -> (round2 x <= inject_Z n)%Q.
Proof.
  intros Hle. apply hundredfold_le, rint_le in Hle.
  unfold round2, Qle, inject_Z. simpl. lia.
Qed.

Lemma sum_int_bounds (lo hi : Z) (l : list Z) :
  Forall (fun a => lo <= a <= hi) l ->
  lo * count l <= sum_int l <= hi * count l.
Proof.
  induction 1 as [|a l Ha _ IH].
  - unfold count. simpl. lia.
  - rewrite count_cons. simpl sum_int. lia.
Qed.

(** The mean of a non-empty integer column lies between its bounds. *)
Lemma mean_int_bounds (lo hi : Z) (l : list Z) :
  l <> [] ->
  Forall (fun a => lo <= a <= hi) l ->
  (inject_Z lo <= mean_int l <= inject_Z hi)%Q.
Proof.
  intros Hne Hall. pose proof (sum_int_bounds Hall) as [Hlo Hhi].
  assert (Hc : (0 < inject_Z (count l))%Q).
  { change 0%Q with (inject_Z 0). rewrite <- Zlt_Qlt. unfold count.
    destruct l; [congruence|]. simpl List.length. lia. }
  unfold mean_int. split.
  - apply Qle_shift_div_l; [exact Hc|].
    rewrite <- inject_Z_mult, <- Zle_Qle. exact Hlo.
  - apply Qle_shift_div_r; [exact Hc|].
    rewrite <- inject_Z_mult, <- Zle_Qle. exact Hhi.
Qed.

(** X3.  If every record has between [lo] and [hi] appointments, so has
    every [avg_appointments] of the Peak Hours table: the mean stays within
    the range of the values it averages and rounding does not take it
    out. *)
Theorem peak_hours_bounds (df : DataFrame) (lo hi : Z) :
  Forall (fun r => lo <= appointments r <= hi) df ->
  forall h r, In (h, r) (peak_hours df) ->
    (inject_Z lo <= Hourly.avg_appointments r <= inject_Z hi)%Q.
Proof.
  intros Hall h r Hin. apply peak_hours_In in Hin. destruct Hin as [Hh ->].
  simpl.
  assert (Hb : (inject_Z lo
                <= mean_int (map appointments (rows_of_hour h df))
                <= inject_Z hi)%Q).
  { apply mean_int_bounds.
    - intros Hnil. apply map_eq_nil in Hnil.
      exact (groupby_nonempty_rows df h Hh Hnil).
    - apply Forall_forall. intros a Ha.
      apply in_map_iff in Ha. destruct Ha as [x [<- Hx]].
      apply filter_In in Hx. rewrite Forall_forall in Hall.
      apply Hall, Hx. }
  split; [apply round2_ge|apply round2_le]; apply Hb.
Qed.

Lemma peak_hours_bounds_witness :
  (inject_Z 1 <= Hourly.avg_appointments (Hourly.mk (150 # 100) (7500 # 100))
   <= inject_Z 4)%Q.
Proof.
  refine (@peak_hours_bounds example_df 1 4 _ 9
            (Hourly.mk (150 # 100) (7500 # 100)) _).
  - unfold example_df.
    repeat apply Forall_cons; try apply Forall_nil; simpl; lia.
  - left. reflexivity.
Defined.

(** ** Signs in the Branch Summary *)








Section Signs.
Context `{SortValues}.

End Signs.


(** ** The KPI figures *)

Lemma idxmax_In {K} (s : table K Q) (k : K) :
  idxmax s = Ok k -> In k (index s).
Proof.
  intros Hk. destruct s as [|kv rest]; [discriminate|].
  assert (Hne : kv :: rest <> []) by discriminate.
  destruct (idxmax_first Hne) as [k' [pre [v [post [Hk' [Hsplit _]]]]]].
  rewrite Hk in Hk'. inversion Hk'; subst k'.
  rewrite Hsplit. unfold index. rewrite map_app. simpl.
  apply in_or_app. right. left. reflexivity.
Qed.

Lemma index_series {K V} (f : V -> Q) (t : table K V) :
  index (series f t) = index t.
Proof.
  unfold index, series. rewrite map_map. reflexivity.
Qed.

Lemma idxmax_nonempty {K} (s : table K Q) :
  s <> [] -> exists k, idxmax s = Ok k.
Proof.
  destruct s as [|kv rest]; [congruence|].
  intros _. eexists. reflexivity.
Qed.

Section KpiFacts.
Context `{SortValues}.

Lemma branch_summary_length (df : DataFrame) :
  List.length (branch_summary df) = List.length (groupby branch df).
Proof.
  rewrite (Permutation_length (branch_summary_perm df)).
  unfold agg. apply length_map.
Qed.

Lemma branch_summary_not_nil (df : DataFrame) :
  df <> [] -> branch_summary df <> [].
Proof.
  intros Hne Hnil. apply (f_equal (@List.length _)) in Hnil.
  rewrite branch_summary_length in Hnil. simpl in Hnil.
  apply length_zero_iff_nil in Hnil.
  exact (groupby_not_nil branch Hne Hnil).
Qed.

Lemma peak_hours_not_nil (df : DataFrame) :
  df <> [] -> peak_hours df <> [].
Proof.
  intros Hne Hnil. apply (f_equal (@List.length _)) in Hnil.
  unfold peak_hours, agg in Hnil. rewrite length_map in Hnil.
  simpl in Hnil. apply length_zero_iff_nil in Hnil.
  exact (groupby_not_nil hour Hne Hnil).
Qed.

Lemma series_not_nil {K V} (f : V -> Q) (t : table K V) :
  t <> [] -> series f t <> [].
Proof.
  destruct t; [congruence|]. discriminate.
Qed.

(** The number of distinct branches is the number of groups. *)
Lemma nunique_branches (df : DataFrame) :
  nunique (map branch df) = List.length (branch_summary df).
Proof.
  rewrite branch_summary_length. unfold nunique.
  rewrite <- (length_map fst (groupby branch df)).
  apply Permutation_length, NoDup_Permutation.
  - apply NoDup_nodup.
  - apply (groupby_NoDup branch df).
  - intros b. rewrite nodup_In. symmetry. apply (groupby_index branch).
Qed.

Lemma best_branch_In (df : DataFrame) (b : string) :
  best_branch df = Ok b -> In b (map branch df).
Proof.
  intros Hb. apply idxmax_In in Hb. rewrite index_series in Hb.
  apply (groupby_index branch).
  rewrite <- (index_agg branch_row). unfold index.
  apply (Permutation_in _ (Permutation_map fst (branch_summary_perm df))).
  exact Hb.
Qed.

Lemma peak_hour_In (df : DataFrame) (h : Z) :
  peak_hour df = Ok h -> In h (map hour df).
Proof.
  intros Hh. apply idxmax_In in Hh. rewrite index_series in Hh.
  unfold peak_hours in Hh. rewrite index_agg in Hh.
  apply (groupby_index hour), Hh.
Qed.

(** X5.  The KPI figures exist exactly for a frame with at least one
    record.  On the empty frame the look-up of the best branch raises
    [ValueError].  Otherwise the best branch is a branch of some record
    and the peak hour an hour of some record, the number of branches
    tracked is the number of rows of the Branch Summary (at least one),
    the total of appointments is the sum of that column of the Branch
    Summary, and the total revenue is the sum of the revenue column of the
    Service Breakdown. *)
Theorem kpis_outcome (df : DataFrame) :
  (df = [] ->
   kpis df = Raise (ValueError "attempt to get argmax of an empty sequence"))
  /\ (df <> [] ->
      exists k,
        kpis df = Ok k
        /\ In (kpi_best_branch k) (map branch df)
        /\ In (kpi_peak_hour k) (map hour df)
        /\ branches_tracked k = List.length (branch_summary df)
        /\ (1 <= branches_tracked k)%nat
        /\ total_appts k
           = sum_int (map (column Branch.total_appointments)
                          (branch_summary df))
        /\ (total_rev k
            == sum_float (map (column Service.total_revenue)
                              (service_breakdown df)))%Q).
Proof.
  split.
  - intros ->. unfold kpis, best_branch, branch_summary. simpl.
    rewrite sort_values_nil. reflexivity.
  - intros Hne.
    destruct (idxmax_nonempty
                (series_not_nil Branch.total_revenue
                                (branch_summary_not_nil Hne))) as [b Hb].
    destruct (idxmax_nonempty
                (series_not_nil Hourly.avg_appointments
                                (peak_hours_not_nil Hne))) as [h Hh].
    fold (best_branch df) in Hb. fold (peak_hour df) in Hh.
    exists (mkKpis (sum_float (map revenue df))
                   (sum_int (map appointments df)) b h
                   (nunique (map branch df))).
    split; [unfold kpis; rewrite Hb, Hh; reflexivity|]. simpl.
    split; [apply best_branch_In, Hb|].
    split; [apply peak_hour_In, Hh|].
    split; [apply nunique_branches|].
    split.
    { rewrite nunique_branches.
      pose proof (branch_summary_not_nil Hne) as Hn.
      destruct (branch_summary df); [congruence|]. simpl. lia. }
    split.
    + rewrite (sum_int_perm (Permutation_map _ (branch_summary_perm df))).
      rewrite branch_summary_appointments.
      symmetry. apply (groupby_sum_int branch appointments df).
    + rewrite (sum_float_perm
                 (Permutation_map _ (service_breakdown_perm df))).
      unfold agg. rewrite map_map. simpl.
      symmetry. apply (groupby_sum_float service_type revenue df).
Qed.
End KpiFacts.

Lemma kpis_outcome_witness :
  exists k,
    @kpis stable_sort example_df = Ok k
    /\ In (kpi_best_branch k) (map branch example_df)
    /\ In (kpi_peak_hour k) (map hour example_df)
    /\ branches_tracked k
       = List.length (@branch_summary stable_sort example_df)
    /\ (1 <= branches_tracked k)%nat
    /\ total_appts k
       = sum_int (map (column Branch.total_appointments)
                      (@branch_summary stable_sort example_df))
    /\ (total_rev k
        == sum_float (map (column Service.total_revenue)
                          (@service_breakdown stable_sort example_df)))%Q.
Proof.
  apply (proj2 (@kpis_outcome stable_sort example_df)).
  unfold example_df. discriminate.
Defined.

(** ** The dashboard and the run *)


Section Dashboard.
Context `{SortValues} `{Plotting}.







Lemma main_read_failure (fs : FileSystem) (timestamp : string) (e : exn) :
  read_csv fs DATA_FILE ["date"%string] = Raise e ->
  main fs timestamp = ([MakeDirs OUTPUT_DIR], Raise e).
Proof.
  intros Hload. unfold main, load_data. rewrite Hload. reflexivity.
Qed.

(** X7.  When the data file is absent, or has no [date] column, the run
    ends with an exception ([FileNotFoundError] with the path of the data
    file in the first case), and all it has done by then is to make the
    output directory: nothing is printed, no report is written and no
    image is saved. *)
Theorem main_load_failure (fs : FileSystem) (timestamp : string) :
  (fs DATA_FILE = None ->
   main fs timestamp
   = ([MakeDirs OUTPUT_DIR], Raise (FileNotFoundError DATA_FILE)))
  /\ (forall f, fs DATA_FILE = Some f ->
        has_column "date" (header f) = false ->
        exists e, main fs timestamp = ([MakeDirs OUTPUT_DIR], Raise e)).
Proof.
  split.
  - intros Hfs. apply main_read_failure. unfold read_csv.
    rewrite Hfs. reflexivity.
  - intros f Hfs Hdate.
    destruct (read_csv fs DATA_FILE ["date"%string]) as [fr|e] eqn:Hload.
    + exfalso. unfold read_csv in Hload. rewrite Hfs in Hload.
      destruct (header f) as [|c cols]; [discriminate|].
      cbn [find] in Hload. rewrite Hdate in Hload. discriminate.
    + exists e. apply main_read_failure, Hload.
Qed.
End Dashboard.


Lemma main_load_failure_witness :
  @main stable_sort checked_plot no_fs "20240102_120000"
  = ([MakeDirs OUTPUT_DIR], Raise (FileNotFoundError DATA_FILE)).
Proof.
  apply (proj1 (@main_load_failure stable_sort checked_plot no_fs "20240102_120000")).
  reflexivity.
Defined.

(** ** Peak Hours and the order of the records *)

Lemma Permutation_filter {A} (f : A -> bool) (l l' : list A) :
  Permutation l l' -> Permutation (filter f l) (filter f l').
Proof.
  induction 1 as [|x l l' _ IH|x y l|l l' l'' _ IH1 _ IH2]; simpl.
  - constructor.
  - destruct (f x); [apply perm_skip|]; exact IH.
  - destruct (f x), (f y); try reflexivity. apply perm_swap.
  - etransitivity; eassumption.
Qed.

(** Two strictly ascending lists with the same members are equal. *)
Lemma StronglySorted_Zlt_unique (l l' : list Z) :
  StronglySorted Z.lt l -> StronglySorted Z.lt l' ->
  (forall k, In k l <-> In k l') -> l = l'.
Proof.
  intros Hs. revert l'. induction Hs as [|a l Hs IH Hall]; intros l' Hs' Hiff.
  - destruct l' as [|b l']; [reflexivity|].
    exfalso. apply (Hiff b). left. reflexivity.
  - destruct Hs' as [|b l' Hs' Hall'].
    + exfalso. apply (Hiff a). left. reflexivity.
    + rewrite Forall_forall in Hall, Hall'.
      assert (Hab : a = b).
      { pose proof (proj1 (Hiff a) (or_introl eq_refl)) as Ha.
        pose proof (proj2 (Hiff b) (or_introl eq_refl)) as Hb.
        destruct Ha as [Ha|Ha]; [congruence|].
        destruct Hb as [Hb|Hb]; [congruence|].
        apply Hall in Hb. apply Hall' in Ha. lia. }
      subst b. f_equal. apply IH; [exact Hs'|].
      intros k. split; intros Hk.
      * destruct (proj1 (Hiff k) (or_intror Hk)) as [<-|Hk']; [|exact Hk'].
        apply Hall in Hk. lia.
      * destruct (proj2 (Hiff k) (or_intror Hk)) as [<-|Hk']; [|exact Hk'].
        apply Hall' in Hk. lia.
Qed.

(** The Peak Hours table, key by key. *)
Lemma peak_hours_by_key (df : DataFrame) :
  peak_hours df
  = map (fun h => (h, hourly_row (rows_of_hour h df))) (index (peak_hours df)).
Proof.
  assert (Hrows : Forall (fun hr => snd hr
                                    = hourly_row (rows_of_hour (fst hr) df))
                         (peak_hours df)).
  { apply Forall_forall. intros [h r] Hin. simpl.
    apply peak_hours_In in Hin. apply Hin. }
  unfold index. induction Hrows as [|[h r] t Hr _ IH]; simpl.
  - reflexivity.
  - simpl in Hr. rewrite Hr, <- IH. reflexivity.
Qed.

Lemma round2_Proper (x y : Q) : (x == y)%Q -> round2 x = round2 y.
Proof.
  intros Hxy. unfold round2.
  assert (Hr : rint (x * 100) = rint (y * 100)).
  { apply rint_Proper. rewrite Hxy. reflexivity. }
  rewrite Hr. reflexivity.
Qed.

Lemma hourly_row_perm (g g' : list Rec) :
  Permutation g g' -> hourly_row g = hourly_row g'.
Proof.
  intros Hp. unfold hourly_row.
  assert (Hc : forall A (f : Rec -> A), count (map f g) = count (map f g')).
  { intros A f. unfold count.
    rewrite (Permutation_length (Permutation_map f Hp)). reflexivity. }
  f_equal.
  - unfold mean_int.
    rewrite (sum_int_perm (Permutation_map appointments Hp)), Hc.
    reflexivity.
  - apply round2_Proper. unfold mean_float.
    rewrite (sum_float_perm (Permutation_map revenue Hp)), Hc.
    reflexivity.
Qed.

(** X8.  The Peak Hours table does not depend on the order of the records:
    two frames with the same records in different orders give the same
    table, row for row. *)
Theorem peak_hours_order_independent (df df' : DataFrame) :
  Permutation df df' -> peak_hours df = peak_hours df'.
Proof.
  intros Hp.
  assert (Hidx : index (peak_hours df) = index (peak_hours df')).
  { apply StronglySorted_Zlt_unique.
    - unfold peak_hours. rewrite index_agg.
      apply StronglySorted_klt_Zlt, groupby_sorted.
    - unfold peak_hours. rewrite index_agg.
      apply StronglySorted_klt_Zlt, groupby_sorted.
    - intros h. unfold peak_hours. rewrite !index_agg.
      rewrite !(groupby_index hour). split; intros Hin.
      + exact (Permutation_in _ (Permutation_map hour Hp) Hin).
      + exact (Permutation_in _ (Permutation_sym (Permutation_map hour Hp))
                              Hin). }
  rewrite (peak_hours_by_key df), (peak_hours_by_key df'), Hidx.
  apply map_ext. intros h. f_equal.
  apply hourly_row_perm. unfold rows_of_hour.
  apply Permutation_filter, Hp.
Qed.

Lemma peak_hours_order_independent_witness :
  peak_hours example_df = peak_hours (rev example_df).
Proof.
  apply (@peak_hours_order_independent example_df (rev example_df)).
  apply Permutation_rev.
Defined.

(** ** Size of the Peak Hours table *)

Lemma NoDup_range_length (l : list Z) (n : nat) :
  NoDup l -> Forall (fun h => 0 <= h < Z.of_nat n) l ->
  (List.length l <= n)%nat.
Proof.
  intros Hnd Hall.
  assert (Hincl : incl l (map Z.of_nat (seq 0 n))).
  { intros h Hh. rewrite Forall_forall in Hall. apply Hall in Hh.
    apply in_map_iff. exists (Z.to_nat h). split; [lia|].
    apply in_seq. lia. }
  pose proof (NoDup_incl_length Hnd Hincl) as Hlen.
  rewrite length_map, length_seq in Hlen. exact Hlen.
Qed.

(** X9.  When every record has its hour in 0..23 the Peak Hours table has
    at most 24 rows, however many records there are. *)
Theorem peak_hours_at_most_24 (df : DataFrame) :
  Forall (fun r => 0 <= hour r <= 23) df ->
  (List.length (peak_hours df) <= 24)%nat.
Proof.
  intros Hvalid.
  rewrite <- (length_map fst (peak_hours df)).
  change (map fst (peak_hours df)) with (index (peak_hours df)).
  unfold peak_hours. rewrite index_agg.
  apply NoDup_range_length; [apply groupby_NoDup|].
  apply Forall_forall. intros h Hh.
  apply (groupby_index hour) in Hh. apply in_map_iff in Hh.
  destruct Hh as [r [<- Hr]]. rewrite Forall_forall in Hvalid.
  apply Hvalid in Hr. simpl. lia.
Qed.

Lemma peak_hours_at_most_24_witness :
  (List.length (peak_hours example_df) <= 24)%nat.
Proof.
  apply (@peak_hours_at_most_24 example_df). unfold example_df.
  repeat apply Forall_cons; try apply Forall_nil; simpl; lia.
Defined.
